(** * Push/Fold trainer: the decision engine of [pushfold.py]

    A shallow embedding of the pure core of [pushfold.py] (range parser,
    chart lookup, hand-strength heuristic, EV formula and the blending rule
    of the advisor), with the properties that its specification states.

    Conventions of the embedding.
    - A Python [float] is a binary64 number: Rocq's primitive [float], whose
      operations round to nearest-even exactly as CPython's do.  Decimal
      literals denote the nearest binary64 value on both sides.
    - A Python [int] is a [Z]; a [str] is a [string] whose characters are
      [ascii]; a [dict] is a [gmap]; a [set] is a [gset].
    - A Python exception is a value [Raise e] of the [result] type. *)

From Stdlib Require Import ZArith String Ascii List Bool Lia.
From Stdlib Require Import Floats.
From stdpp Require Import gmap strings.

Set Warnings "-inexact-float".

Local Open Scope string_scope.
Local Open Scope Z_scope.

(** ** Exceptions *)

Inductive exn : Set :=
| ValueError
| IndexError
| OverflowError.

Inductive result (A : Type) : Type :=
| Ok (a : A)
| Raise (e : exn).

Arguments Ok {A} a.
Arguments Raise {A} e.

#[global] Instance result_ret : MRet result := fun A a => Ok a.

#[global] Instance result_bind : MBind result := fun A B k m =>
  match m with
  | Ok a => k a
  | Raise e => Raise e
  end.

(** ** Python built-ins used by the program *)

Module Py.

(** [s[i]] for a non-negative literal index. *)
Definition item (s : string) (i : nat) : result ascii :=
  match String.get i s with
  | Some c => Ok c
  | None => Raise IndexError
  end.

Fixpoint index_from (s : string) (c : ascii) (i : Z) : result Z :=
  match s with
  | EmptyString => Raise ValueError
  | String d s' => if Ascii.eqb d c then Ok i else index_from s' c (i + 1)
  end.

(** [s.index(c)] for a one-character needle. *)
Definition index (s : string) (c : ascii) : result Z := index_from s c 0.

(** [c in s] for a one-character needle. *)
Fixpoint contains (c : ascii) (s : string) : bool :=
  match s with
  | EmptyString => false
  | String d s' => Ascii.eqb d c || contains c s'
  end.

(** [s.endswith(c)] for a one-character suffix. *)
Fixpoint endswith (s : string) (c : ascii) : bool :=
  match s with
  | EmptyString => false
  | String d EmptyString => Ascii.eqb d c
  | String _ s' => endswith s' c
  end.

(** [s.replace(c, "")]. *)
Fixpoint remove (c : ascii) (s : string) : string :=
  match s with
  | EmptyString => EmptyString
  | String d s' => if Ascii.eqb d c then remove c s' else String d (remove c s')
  end.

(** [s.split(c)]: the pieces between the separators, [[""]] for [""]. *)
Fixpoint split_acc (c : ascii) (s : string) (cur : string) : list string :=
  match s with
  | EmptyString => [cur]
  | String d s' =>
      if Ascii.eqb d c then cur :: split_acc c s' EmptyString
      else split_acc c s' (cur ++ String d EmptyString)
  end.

Definition split (c : ascii) (s : string) : list string :=
  split_acc c s EmptyString.

(** [s[idx::-1]] for [0 <= idx < len(s)]: the characters at positions
    [idx], [idx-1], ..., [0]. *)
Definition slice_down (s : string) (idx : Z) : list ascii :=
  rev (take (Z.to_nat idx + 1) (list_ascii_of_string s)).

(** [min(x, y)] on floats: CPython keeps the first argument unless the
    second compares strictly below it. *)
Definition min (x y : float) : float :=
  if PrimFloat.ltb y x then y else x.

(** The binary64 nearest to the integer [n] (ties to even), an infinity
    when that is out of range. *)
Definition float_of_Z (n : Z) : float :=
  SF2Prim (binary_normalize prec emax n 0 false).

(** [float(n)], also the implicit conversion of an [int] operand in mixed
    arithmetic: the nearest binary64, or an [OverflowError] when the int
    is too large for one. *)
Definition to_float (n : Z) : result float :=
  match binary_normalize prec emax n 0 false with
  | S754_infinity _ => Raise OverflowError
  | _ => Ok (float_of_Z n)
  end.

(** [a / b] on ints whose magnitudes are below [2^53] with [b] not zero
    (the only use is [ranks.index(..) / 12]): both convert exactly, and
    the correctly rounded quotient is the binary64 division. *)
Definition truediv (a b : Z) : float :=
  (float_of_Z a / float_of_Z b)%float.

(** Rounding of the rational [m * 2^e] ([m >= 0]) to the nearest integer,
    ties to the even one. *)
Definition round_half_even (m e : Z) : Z :=
  if 0 <=? e then m * 2 ^ e
  else
    let d := 2 ^ (- e) in
    let q := m / d in
    match (2 * (m mod d) ?= d) with
    | Lt => q
    | Gt => q + 1
    | Eq => if Z.even q then q else q + 1
    end.

(** [round(x)] with one argument: an [int], [ValueError] on a NaN and
    [OverflowError] on an infinity. *)
Definition round (x : float) : result Z :=
  match Prim2SF x with
  | S754_nan => Raise ValueError
  | S754_infinity _ => Raise OverflowError
  | S754_zero _ => Ok 0
  | S754_finite s m e => Ok (cond_Zopp s (round_half_even (Z.pos m) e))
  end.

End Py.

(** ** Data model *)

Record Spot : Type := {
  stacks_bb : float;
  position : string;
  players_left : Z;
  action_before : string;
  sb : float;
  bb : float;
  ante : float;
  bb_ante : bool;
  pko : bool;
  bounty_self : float;
  bounty_op : float;
  coverage : string
}.

(** The values that [advisor_mode] computes and prints ([notes] is never
    filled by the program and is left out). *)
Record Advice : Type := {
  hand : string;
  decision_chart : string;
  ev_push : float;
  ev_fold : float;
  decision_ev : string;
  final : string
}.

(** A chart: [(stack bucket, position, action_before)] to [hand] to decision. *)
Abbreviation Chart := (gmap (Z * string * string) (gmap string string)).

(** The process-wide generator of the [random] module, as far as the core
    touches it: seeded by the system at start-up, or re-seeded by
    [random.seed(n)]. *)
Inductive rng : Set :=
| SystemSeeded
| Seeded (n : Z).

(** ** Range parser *)

(** One turn of the loop body of [parse_hand_range] on a non-empty token:
    [hands] is the accumulator list. *)
Definition parse_token (token : string) (hands : list string) : result (list string) :=
  let ranks := "AKQJT98765432" in
  if Py.contains "+" token && (String.length token =? 3)%nat then
    let base := substring 0 2 token in
    s ← Py.item token 2;
    b1 ← Py.item base 1;
    idx ← Py.index ranks b1;
    b0 ← Py.item base 0;
    Ok (hands ++ map (fun r => String b0 (String r (String s EmptyString)))
                     (Py.slice_down ranks idx))%list
  else if Py.contains "+" token && (String.length token =? 2)%nat then
    t0 ← Py.item token 0;
    idx ← Py.index ranks t0;
    Ok (hands ++ map (fun r => String r (String r EmptyString))
                     (Py.slice_down ranks idx))%list
  else Ok (hands ++ [token])%list.

Fixpoint parse_tokens (tokens : list string) (hands : list string) : result (list string) :=
  match tokens with
  | [] => Ok hands
  | token :: rest =>
      if (String.length token =? 0)%nat then parse_tokens rest hands
      else hands' ← parse_token token hands; parse_tokens rest hands'
  end.

(** The list [hands] built by the loop, before [list(set(hands))]. *)
Definition parse_hand_range_hands (range_str : string) : result (list string) :=
  parse_tokens (Py.split "," (Py.remove " " range_str)) [].

(** [set(hands)]. *)
Definition parse_hand_range_set (range_str : string) : result (gset string) :=
  hands ← parse_hand_range_hands range_str; Ok (list_to_set hands).

(** [parse_hand_range]: the order of [list(set(hands))] is whatever the set
    iterates in; [elements] stands for it, and only the members matter. *)
Definition parse_hand_range (range_str : string) : result (list string) :=
  s ← parse_hand_range_set range_str; Ok (elements s).

(** ** Chart *)

(** [load_chart(None)]: the built-in chart. *)
Definition load_chart_default : Chart :=
  <[ (10, "SB", "none") :=
       <[ "A2s" := "PUSH" ]> (<[ "A9o" := "PUSH" ]> (<[ "KTo" := "FOLD" ]> ∅)) ]>
  (<[ (10, "BTN", "none") :=
       <[ "A2s" := "PUSH" ]> (<[ "A8o" := "PUSH" ]>
         (<[ "K9s" := "PUSH" ]> (<[ "K9o" := "FOLD" ]> ∅))) ]> ∅).

Definition eval_spot_chart (hand : string) (spot : Spot) (chart : Chart) : result string :=
  bucket ← Py.round (stacks_bb spot);
  let key := (bucket, position spot, action_before spot) in
  match chart !! key with
  | None => Ok "N/A"
  | Some row => Ok (default "N/A" (row !! hand))
  end.

(** ** Hand strength and EV *)

Definition hand_strength_estimate (hand : string) : result float :=
  let ranks := "23456789TJQKA" in
  h0 ← Py.item hand 0;
  i ← Py.index ranks h0;
  let base := Py.truediv i 12 in
  if (String.length hand =? 2)%nat
     && (match String.get 1 hand with Some h1 => Ascii.eqb h0 h1 | None => false end)
  then Ok (0.85 + base * 0.05)%float
  else
    let suited := Py.endswith hand "s" in
    let offsuit := Py.endswith hand "o" in
    if suited then Ok (0.5 + base * 0.4)%float
    else if offsuit then Ok (0.4 + base * 0.35)%float
    else Ok 0.5%float.

(** [if seed: random.seed(seed)]: [None] and [0] are falsy. *)
Definition seed_rng (seed : option Z) (g : rng) : rng :=
  match seed with
  | Some n => if n =? 0 then g else Seeded n
  | None => g
  end.

Definition eval_spot_ev (hand : string) (spot : Spot) (iterations : Z)
    (seed : option Z) (g : rng) : rng * result (float * float) :=
  (seed_rng seed g,
   equity ← hand_strength_estimate hand;
   k ← Py.to_float (9 - players_left spot);
   let p_call := Py.min (0.25 + 0.05 * k)%float 0.5%float in
   antes ← (if bb_ante spot then Ok (bb spot)
            else n ← Py.to_float (players_left spot); Ok (ante spot * n)%float);
   let pot_pre := (sb spot + bb spot + antes)%float in
   let ev_fold := 0.0%float in
   let ev_push :=
     ((1 - p_call) * pot_pre
      + p_call * (equity * (pot_pre + stacks_bb spot)
                  - (1 - equity) * stacks_bb spot))%float in
   let ev_push :=
     if pko spot && String.eqb (coverage spot) "self"
     then (ev_push + equity * bounty_op spot / 10.0)%float
     else ev_push in
   Ok (ev_push, ev_fold)).

(** ** Advisor *)

(** The computing part of [advisor_mode], for the chart that [load_chart]
    returned and the hand that [args.hand or random_hand()] gave; the
    printing that follows is not modelled. *)
Definition advisor_mode (chart : Chart) (hand : string) (spot : Spot)
    (iterations : Z) (seed : option Z) (g : rng) : rng * result Advice :=
  match eval_spot_chart hand spot chart with
  | Raise e => (g, Raise e)
  | Ok decision_chart =>
      let (g', ev) := eval_spot_ev hand spot iterations seed g in
      (g',
       '(ev_push, ev_fold) ← ev;
       let decision_ev := if (ev_fold <? ev_push)%float then "PUSH" else "FOLD" in
       let final :=
         if String.eqb decision_chart "N/A"
            || (0.15 <? abs (ev_push - ev_fold))%float
         then decision_ev else decision_chart in
       Ok {| hand := hand; decision_chart := decision_chart;
             ev_push := ev_push; ev_fold := ev_fold;
             decision_ev := decision_ev; final := final |})
  end.

(** ** Vocabulary of the specification *)

(** The ranks in ascending strength order, as [hand_strength_estimate]
    indexes them. *)
Definition ranks_ascending : string := "23456789TJQKA".

(** The pocket pair of rank [r]. *)
Definition pocket_pair (r : ascii) : string := String r (String r EmptyString).

(** The test [len(hand) == 2 and hand[0] == hand[1]]. *)
Definition is_pocket_pair (hand : string) : bool :=
  (String.length hand =? 2)%nat
  && match String.get 0 hand, String.get 1 hand with
     | Some a, Some b => Ascii.eqb a b
     | _, _ => false
     end.

(** The values of the three strength cases at rank index [i]. *)
Definition pair_value (i : Z) : float := (0.85 + Py.truediv i 12 * 0.05)%float.
Definition suited_value (i : Z) : float := (0.5 + Py.truediv i 12 * 0.4)%float.
Definition offsuit_value (i : Z) : float := (0.4 + Py.truediv i 12 * 0.35)%float.

(** A float that is neither a NaN nor an infinity. *)
Definition is_finite (x : float) : bool :=
  match Prim2SF x with
  | S754_zero _ | S754_finite _ _ _ => true
  | _ => false
  end.

(** [lo <= x <= hi] on floats. *)
Definition within (lo hi x : float) : bool :=
  ((lo <=? x) && (x <=? hi))%float.

(** The EV formula in the words of the specification.  [k] and [n] are the
    float values of [9 - players_left] and of [players_left]. *)
Module Spec.

Definition p_call (k : float) : float :=
  Py.min (0.25 + 0.05 * k)%float 0.5%float.

Definition pot_pre (spot : Spot) (n : float) : float :=
  (sb spot + bb spot + (if bb_ante spot then bb spot else ante spot * n))%float.

Definition ev_push_plain (equity p_call pot_pre stacks_bb : float) : float :=
  ((1 - p_call) * pot_pre
   + p_call * (equity * (pot_pre + stacks_bb) - (1 - equity) * stacks_bb))%float.

Definition bounty_term (equity bounty_op : float) : float :=
  (equity * bounty_op / 10)%float.

Definition bounty_applies (spot : Spot) : bool :=
  pko spot && String.eqb (coverage spot) "self".

Definition ev_push (equity k n : float) (spot : Spot) : float :=
  let plain := ev_push_plain equity (p_call k) (pot_pre spot n) (stacks_bb spot) in
  if bounty_applies spot then (plain + bounty_term equity (bounty_op spot))%float
  else plain.

(** The decision of the EV side: ties go to FOLD. *)
Definition decision_ev (ev_push ev_fold : float) : string :=
  if (ev_fold <? ev_push)%float then "PUSH" else "FOLD".

End Spec.

(** The spot of the concrete scenario of the specification. *)
Definition scenario_spot : Spot :=
  {| stacks_bb := 10; position := "SB"; players_left := 8;
     action_before := "none"; sb := 0.5; bb := 1.0; ante := 0.125;
     bb_ante := true; pko := false; bounty_self := 0; bounty_op := 0;
     coverage := "none" |}.


(** A knockout table of fifteen players with a per-player ante, the
    coverage being the hero's. *)
Definition knockout_spot : Spot :=
  {| stacks_bb := 12; position := "CO"; players_left := 15;
     action_before := "none"; sb := 0.5; bb := 1.0; ante := 0.1;
     bb_ante := false; pko := true; bounty_self := 5; bounty_op := 5;
     coverage := "self" |}.

(** [n] is the integer nearest to the rational [m * 2^e] (with [0 <= m]),
    the even one of the two when [m * 2^e] lies half-way. *)
Definition rounds_to (m e n : Z) : Prop :=
  if 0 <=? e then n = m * 2 ^ e
  else
    let d := 2 ^ (- e) in
    2 * Z.abs (m - n * d) <= d
    /\ (2 * Z.abs (m - n * d) = d -> Z.even n = true).

(** [n] is the integer nearest to the finite float [x], ties to even. *)
Definition nearest_integer (x : float) (n : Z) : Prop :=
  match Prim2SF x with
  | S754_zero _ => n = 0
  | S754_finite s m e => exists a, n = cond_Zopp s a /\ rounds_to (Z.pos m) e a
  | _ => False
  end.

(** ** The rest of the program *)

(** Built-ins of [str] that the chart loader and the quiz use; characters
    are those of the ASCII range. *)
Module PyStr.

(** [c.upper()]: the letters [a]..[z] move to [A]..[Z]. *)
Definition upper_char (c : ascii) : ascii :=
  let n := nat_of_ascii c in
  if ((97 <=? n) && (n <=? 122))%nat then ascii_of_nat (n - 32) else c.

(** [s.upper()]. *)
Fixpoint upper (s : string) : string :=
  match s with
  | EmptyString => EmptyString
  | String c s' => String (upper_char c) (upper s')
  end.

(** [c.isspace()]: tab to carriage return, the four separators and the
    space. *)
Definition is_space (c : ascii) : bool :=
  let n := nat_of_ascii c in
  (((9 <=? n) && (n <=? 13)) || ((28 <=? n) && (n <=? 32)))%nat.

(** [s.lstrip()]. *)
Fixpoint lstrip (s : string) : string :=
  match s with
  | EmptyString => EmptyString
  | String c s' => if is_space c then lstrip s' else s
  end.

(** The string read backwards, onto [acc]. *)
Fixpoint rev_onto (s acc : string) : string :=
  match s with
  | EmptyString => acc
  | String c s' => rev_onto s' (String c acc)
  end.

(** [s.rstrip()]. *)
Definition rstrip (s : string) : string :=
  rev_onto (lstrip (rev_onto s EmptyString)) EmptyString.

(** [s.strip()]. *)
Definition strip (s : string) : string := rstrip (lstrip s).

(** [s.endswith(suffix)]. *)
Definition endswith (s suffix : string) : bool :=
  let n := String.length s in
  let m := String.length suffix in
  (m <=? n)%nat && String.eqb (substring (n - m) m s) suffix.

End PyStr.

(** [random_hand]: [random.sample(ranks, 2)] gives the characters at two
    distinct positions [i] and [j] of [ranks], and
    [random.choice(['s', 'o'])] one of the two tags; the draws are the
    arguments.  Both branches of the loop body return, so the loop makes
    one turn. *)
Definition random_hand (i j : nat) (suited : bool) : result string :=
  let ranks := "AKQJT98765432" in
  a ← Py.item ranks i;
  b ← Py.item ranks j;
  if Ascii.eqb a b then Ok (String a (String b EmptyString))
  else
    let s := if suited then "s"%char else "o"%char in
    Ok (String a (String b (String s EmptyString))).

(** A record of a chart file as [csv.DictReader] or [json.load] yields it;
    [row_stack_bb] is the value of [int(row["stack_bb"])]. *)
Record ChartRow : Type := {
  row_stack_bb : Z;
  row_position : string;
  row_action_before : string;
  row_hand : string;
  row_decision : string
}.

(** The loop body of both loaders:
    [chart.setdefault(key, {})[row["hand"]] = row["decision"].upper()]. *)
Definition add_row (chart : Chart) (row : ChartRow) : Chart :=
  let key := (row_stack_bb row, row_position row, row_action_before row) in
  let entries := default ∅ (chart !! key) in
  <[ key := <[ row_hand row := PyStr.upper (row_decision row) ]> entries ]> chart.

(** [load_chart(path)], for the records [rows] that the reader of the
    file's format yields. *)
Definition load_chart (path : option string) (rows : list ChartRow) : result Chart :=
  match path with
  | None => Ok load_chart_default
  | Some path =>
      if (String.length path =? 0)%nat then Ok load_chart_default
      else if PyStr.endswith path ".csv" then Ok (fold_left add_row rows ∅)
      else if PyStr.endswith path ".json" then Ok (fold_left add_row rows ∅)
      else Raise ValueError
  end.

(** The lists that [quiz_mode] draws from. *)
Definition quiz_hands : list string :=
  ["A2s"; "A9o"; "KTo"; "QTs"; "77"; "ATo"; "K9s"; "A5s"; "55"; "JTo"].
Definition quiz_positions : list string := ["SB"; "BTN"; "CO"].
Definition quiz_stacks : list Z := [8; 10; 12].

(** One turn of the quiz: the three [random.choice] draws and the line that
    [input] reads. *)
Record QuizTurn : Type := {
  turn_hand : string;
  turn_pos : string;
  turn_stacks : Z;
  turn_input : string
}.

(** The spot of a quiz turn; the int [stacks] is stored as it is, the float
    of the model has the same value. *)
Definition quiz_spot (stacks : Z) (pos : string) : Spot :=
  {| stacks_bb := Py.float_of_Z stacks; position := pos; players_left := 8;
     action_before := "none"; sb := 0.5; bb := 1.0; ante := 0.125;
     bb_ante := true; pko := false; bounty_self := 0; bounty_op := 0;
     coverage := "none" |}.

(** The verdict of one turn: [ans == decision_chart]. *)
Definition quiz_turn (chart : Chart) (t : QuizTurn) : result bool :=
  decision_chart ←
    eval_spot_chart (turn_hand t) (quiz_spot (turn_stacks t) (turn_pos t)) chart;
  let ans := PyStr.upper (PyStr.strip (turn_input t)) in
  Ok (String.eqb ans decision_chart).



(** *** Vocabulary of the further properties *)

(** A token holds neither a space nor a comma. *)
Definition plain_token (t : string) : bool :=
  negb (Py.contains " " t) && negb (Py.contains "," t).

(** The row is filed under [key] for the hand [hand]. *)
Definition row_matches (key : Z * string * string) (hand : string)
    (row : ChartRow) : bool :=
  bool_decide ((row_stack_bb row, row_position row, row_action_before row) = key)
  && String.eqb (row_hand row) hand.

(** The decision of the last row filed under [key] and [hand], upper-cased,
    or ["N/A"]. *)
Definition last_decision (rows : list ChartRow) (key : Z * string * string)
    (hand : string) : string :=
  match last (List.filter (row_matches key hand) rows) with
  | Some row => PyStr.upper (row_decision row)
  | None => "N/A"
  end.

(** What [random.choice] can give a quiz turn. *)
Definition quiz_turn_drawn (t : QuizTurn) : Prop :=
  turn_hand t ∈ quiz_hands /\ turn_pos t ∈ quiz_positions
  /\ turn_stacks t ∈ quiz_stacks.

(** The built-in chart as a table: its answer at a whole stack. *)
Definition builtin_answer (hand pos : string) (stacks : Z) : option string :=
  if stacks =? 10 then
    if String.eqb pos "SB" then
      if String.eqb hand "A2s" then Some "PUSH"
      else if String.eqb hand "A9o" then Some "PUSH"
      else if String.eqb hand "KTo" then Some "FOLD"
      else None
    else if String.eqb pos "BTN" then
      if String.eqb hand "A2s" then Some "PUSH"
      else if String.eqb hand "A8o" then Some "PUSH"
      else if String.eqb hand "K9s" then Some "PUSH"
      else if String.eqb hand "K9o" then Some "FOLD"
      else None
    else None
  else None.

(** [chart[key][hand]] when both are present. *)
Definition chart_get (chart : Chart) (key : Z * string * string)
    (hand : string) : option string :=
  match chart !! key with
  | Some entries => entries !! hand
  | None => None
  end.

(** What a row is filed under. *)
Definition row_key (row : ChartRow) : Z * string * string * string :=
  (row_stack_bb row, row_position row, row_action_before row, row_hand row).

(** * Properties *)

(** ** Comparisons of binary64 numbers *)

Module FloatFacts.

Lemma compare_cont_Eq_antisym (p q : positive) :
  Pos.compare_cont Eq q p = CompOpp (Pos.compare_cont Eq p q).
Proof. symmetry. apply (Pos.compare_cont_antisym p q Eq). Qed.

(** Swapping the operands of a comparison mirrors its outcome. *)
Lemma SFcompare_antisym (x y : spec_float) :
  SFcompare y x = option_map CompOpp (SFcompare x y).
Proof.
  destruct x as [sx | sx | | sx mx ex], y as [sy | sy | | sy my ey];
    try (destruct sx); try (destruct sy); simpl; try reflexivity.
  - rewrite (Z.compare_antisym ey ex).
    destruct (ey ?= ex); simpl; try reflexivity.
    rewrite (compare_cont_Eq_antisym mx my). now rewrite CompOpp_involutive.
  - rewrite (Z.compare_antisym ey ex).
    destruct (ey ?= ex); simpl; try reflexivity.
    now rewrite (compare_cont_Eq_antisym mx my).
Qed.


(** A number below zero is not above one half. *)
Lemma negative_not_above_half (x : float) :
  (x <? 0)%float = true -> (0.5 <? x)%float = false.
Proof.
  rewrite !ltb_spec. unfold SFltb.
  destruct (Prim2SF x) as [s | s | | s m e]; try (destruct s);
    vm_compute; intros H; try reflexivity; discriminate H.
Qed.

End FloatFacts.

(** ** Rounding of binary64 operations

    What the program's claims need of the rounding that [SpecFloat]
    specifies: the shape of a rounded normal number. *)

Module Binary64.

Abbreviation fexp64 := (fexp prec emax).

Lemma fexp64_eq (e : Z) : fexp64 e = Z.max (e - 53) (-1074).
Proof. reflexivity. Qed.

Lemma digits2_pos_size (p : positive) : digits2_pos p = Pos.size p.
Proof. induction p; simpl; congruence. Qed.

Lemma digits_bounds (p : positive) :
  2 ^ (Z.pos (digits2_pos p) - 1) <= Z.pos p < 2 ^ Z.pos (digits2_pos p).
Proof.
  rewrite digits2_pos_size.
  pose proof (Pos.size_gt p) as Hgt. pose proof (Pos.size_le p) as Hle.
  apply Pos2Z.pos_lt_pos in Hgt. apply Pos2Z.pos_le_pos in Hle.
  rewrite Pos2Z.inj_pow in Hgt, Hle.
  rewrite (Pos2Z.inj_xO p) in Hle.
  replace (Z.pos (Pos.size p)) with (Z.pos (Pos.size p) - 1 + 1) in Hle at 1 by lia.
  rewrite Z.pow_add_r in Hle by lia. change (2 ^ 1) with 2 in Hle.
  lia.
Qed.

Lemma digits_unique (p : positive) (d : Z) :
  2 ^ (d - 1) <= Z.pos p < 2 ^ d -> Z.pos (digits2_pos p) = d.
Proof.
  intros [Hlo Hhi]. pose proof (digits_bounds p) as [Hlo' Hhi'].
  set (d' := Z.pos (digits2_pos p)) in *.
  assert (0 < d') as Hd' by (unfold d'; lia).
  assert (0 < d) as Hd.
  { destruct (Z.ltb_spec 0 d) as [H | H]; [exact H | ].
    exfalso. destruct (Z.eq_dec d 0) as [-> | Hne].
    - simpl in Hhi. lia.
    - rewrite (Z.pow_neg_r 2 d) in Hhi by lia. lia. }
  destruct (Z.lt_trichotomy d' d) as [H | [H | H]]; [ | exact H | ]; exfalso.
  - assert (2 ^ d' <= 2 ^ (d - 1)) by (apply Z.pow_le_mono_r; lia). lia.
  - assert (2 ^ d <= 2 ^ (d' - 1)) by (apply Z.pow_le_mono_r; lia). lia.
Qed.

(** ** Right shifts *)

Lemma shr_1_m (mrs : shr_record) :
  0 <= shr_m mrs -> shr_m (shr_1 mrs) = shr_m mrs / 2.
Proof.
  destruct mrs as [m r s]. simpl. intros Hm.
  destruct m as [ | [p | p | ] | p]; simpl; try reflexivity; try lia.
  - rewrite (Pos2Z.inj_xI p). apply (Z.div_unique _ 2 _ 1); lia.
  - rewrite (Pos2Z.inj_xO p). apply (Z.div_unique _ 2 _ 0); lia.
Qed.

Lemma iter_pos_shr_1_m (n : positive) (mrs : shr_record) :
  0 <= shr_m mrs ->
  shr_m (SpecFloat.iter_pos shr_1 n mrs) = shr_m mrs / 2 ^ Z.pos n.
Proof.
  revert mrs. induction n as [n IH | n IH | ]; intros mrs Hm; simpl SpecFloat.iter_pos.
  - assert (0 <= shr_m (shr_1 mrs)) as H1
        by (rewrite shr_1_m by exact Hm; apply Z.div_pos; lia).
    assert (0 <= shr_m (SpecFloat.iter_pos shr_1 n (shr_1 mrs))) as H2
        by (rewrite IH by exact H1; apply Z.div_pos; [exact H1 | apply Z.pow_pos_nonneg; lia]).
    rewrite IH by exact H2. rewrite IH by exact H1. rewrite shr_1_m by exact Hm.
    rewrite !Z.div_div by (try apply Z.pow_pos_nonneg; lia).
    f_equal. rewrite (Pos2Z.inj_xI n).
    replace (2 * Z.pos n + 1) with (1 + Z.pos n + Z.pos n) by lia.
    rewrite !Z.pow_add_r by lia. change (2 ^ 1) with 2. ring.
  - assert (0 <= shr_m (SpecFloat.iter_pos shr_1 n mrs)) as H2
        by (rewrite IH by exact Hm; apply Z.div_pos; [exact Hm | apply Z.pow_pos_nonneg; lia]).
    rewrite IH by exact H2. rewrite IH by exact Hm.
    rewrite !Z.div_div by (try apply Z.pow_pos_nonneg; lia).
    f_equal. rewrite (Pos2Z.inj_xO n).
    replace (2 * Z.pos n) with (Z.pos n + Z.pos n) by lia.
    rewrite !Z.pow_add_r by lia. ring.
  - rewrite shr_1_m by exact Hm. reflexivity.
Qed.

Lemma shr_record_of_loc_m (m : Z) (l : location) :
  shr_m (shr_record_of_loc m l) = m.
Proof. destruct l as [ | [ | | ]]; reflexivity. Qed.

(** One alignment step of the rounding: the mantissa is divided by
    [2^n] when the shift [n] is positive and kept otherwise. *)
Lemma shr_fexp_m (m e : Z) (l : location) :
  0 <= m ->
  let n := fexp64 (Zdigits2 m + e) - e in
  shr_m (fst (shr_fexp prec emax m e l)) = m / 2 ^ Z.max n 0
  /\ snd (shr_fexp prec emax m e l) = e + Z.max n 0.
Proof.
  intros Hm n. unfold shr_fexp, shr. fold n.
  destruct n as [ | p | p] eqn:Hn; simpl fst; simpl snd.
  - rewrite shr_record_of_loc_m. simpl. rewrite Z.div_1_r. lia.
  - rewrite iter_pos_shr_1_m by (rewrite shr_record_of_loc_m; exact Hm).
    rewrite shr_record_of_loc_m. replace (Z.max (Z.pos p) 0) with (Z.pos p) by lia.
    split; reflexivity.
  - rewrite shr_record_of_loc_m. simpl. rewrite Z.div_1_r. lia.
Qed.

Lemma round_nearest_even_bounds (m : Z) (l : location) :
  m <= round_nearest_even m l <= m + 1.
Proof.
  destruct l as [ | [ | | ]]; simpl; try lia.
  destruct (Z.even m); lia.
Qed.


(** ** Rounding a mantissa of at least 53 bits in the normal range *)

Lemma pow2_pos (n : Z) : 0 <= n -> 0 < 2 ^ n.
Proof. intros Hn. apply Z.pow_pos_nonneg; lia. Qed.

Lemma pow2_split (a b : Z) : 0 <= a -> 0 <= b -> 2 ^ (a + b) = 2 ^ a * 2 ^ b.
Proof. intros Ha Hb. apply Z.pow_add_r; assumption. Qed.

Lemma Zdigits2_53 (m : Z) : 2 ^ 52 <= m < 2 ^ 53 -> Zdigits2 m = 53.
Proof.
  intros Hm. destruct m as [ | p | p]; try (simpl in Hm; lia).
  simpl. apply digits_unique. exact Hm.
Qed.

Lemma Zdigits2_54 : Zdigits2 (2 ^ 53) = 54.
Proof. reflexivity. Qed.

(** The outcome of [binary_round_aux] on an exact mantissa [m] of [d >= 53]
    bits whose rounded exponent [d + e - 53] is not below the subnormal
    one: a normal number of the same sign, whose exponent is [d + e - 53]
    or one more, or an infinity. *)
Lemma binary_round_aux_normal (s : bool) (m : positive) (e : Z) :
  let d := Z.pos (digits2_pos m) in
  53 <= d -> -1074 <= d + e - 53 ->
  binary_round_aux prec emax s (Z.pos m) e loc_Exact = S754_infinity s
  \/ exists m2 e2,
       binary_round_aux prec emax s (Z.pos m) e loc_Exact = S754_finite s m2 e2
       /\ 2 ^ 52 <= Z.pos m2 < 2 ^ 53
       /\ e2 <= 971
       /\ d + e - 53 <= e2
       /\ (e2 = d + e - 53 -> Z.pos m / 2 ^ (d - 53) <= Z.pos m2).
Proof.
  intros d Hd He.
  pose proof (digits_bounds m) as Hm. fold d in Hm.
  unfold binary_round_aux.
  pose proof (shr_fexp_m (Z.pos m) e loc_Exact ltac:(lia)) as [Hm1 He1].
  destruct (shr_fexp prec emax (Z.pos m) e loc_Exact) as [mrs1 e1].
  simpl fst in Hm1; simpl snd in He1.
  change (Zdigits2 (Z.pos m)) with d in Hm1, He1.
  rewrite fexp64_eq in Hm1, He1.
  replace (Z.max (Z.max (d + e - 53) (-1074) - e) 0) with (d - 53) in Hm1, He1 by lia.
  assert (2 ^ 52 <= Z.pos m / 2 ^ (d - 53) < 2 ^ 53) as Hq.
  { pose proof (pow2_pos (d - 53) ltac:(lia)) as Hp.
    split.
    - apply Z.div_le_lower_bound; [exact Hp | ].
      rewrite <- pow2_split by lia. replace (d - 53 + 52) with (d - 1) by lia.
      apply Hm.
    - apply Z.div_lt_upper_bound; [exact Hp | ].
      rewrite <- pow2_split by lia. replace (d - 53 + 53) with d by lia.
      apply Hm. }
  pose proof (round_nearest_even_bounds (shr_m mrs1) (loc_of_shr_record mrs1)) as Hr.
  set (m1 := round_nearest_even (shr_m mrs1) (loc_of_shr_record mrs1)) in *.
  rewrite Hm1 in Hr.
  pose proof (shr_fexp_m m1 e1 loc_Exact ltac:(lia)) as [Hm2 He2].
  destruct (shr_fexp prec emax m1 e1 loc_Exact) as [mrs2 e2].
  simpl fst in Hm2; simpl snd in He2.
  rewrite fexp64_eq in Hm2, He2.
  assert (m1 < 2 ^ 53 \/ m1 = 2 ^ 53) as [Hlt | Heq] by lia.
  - rewrite (Zdigits2_53 m1) in Hm2, He2 by lia.
    replace (Z.max (Z.max (53 + e1 - 53) (-1074) - e1) 0) with 0 in Hm2, He2 by lia.
    rewrite Z.div_1_r in Hm2. rewrite Hm2.
    destruct m1 as [ | p1 | p1]; try lia.
    destruct (e2 <=? emax - prec) eqn:Hb; [right | left; reflexivity].
    apply Z.leb_le in Hb. change (emax - prec) with 971 in Hb.
    exists p1, e2. repeat split; try lia.
  - rewrite Heq in Hm2, He2. rewrite Zdigits2_54 in Hm2, He2.
    replace (Z.max (Z.max (54 + e1 - 53) (-1074) - e1) 0) with 1 in Hm2, He2 by lia.
    change (2 ^ 53 / 2 ^ 1) with (2 ^ 52) in Hm2. rewrite Hm2.
    change (2 ^ 52) with (Z.pos 4503599627370496).
    destruct (e2 <=? emax - prec) eqn:Hb; [right | left; reflexivity].
    apply Z.leb_le in Hb. change (emax - prec) with 971 in Hb.
    exists 4503599627370496%positive, e2.
    change (Z.pos 4503599627370496) with (2 ^ 52).
    repeat split; try lia.
Qed.


(** ** Left shifts and [binary_round] *)

Lemma iter_xO (m n : positive) :
  Z.pos (Pos.iter xO m n) = Z.pos m * 2 ^ Z.pos n.
Proof.
  induction n as [ | n IH] using Pos.peano_ind.
  - simpl. lia.
  - rewrite Pos.iter_succ, Pos2Z.inj_xO, IH, Pos2Z.inj_succ.
    rewrite Z.pow_succ_r by lia. ring.
Qed.

(** [binary_round] on a mantissa [q] whose rounded exponent
    [d + e - 53] is not below the subnormal one. *)
Lemma binary_round_normal (s : bool) (q : positive) (e : Z) :
  let d := Z.pos (digits2_pos q) in
  -1074 <= d + e - 53 ->
  binary_round prec emax s q e = S754_infinity s
  \/ exists m2 e2,
       binary_round prec emax s q e = S754_finite s m2 e2
       /\ 2 ^ 52 <= Z.pos m2 < 2 ^ 53
       /\ e2 <= 971
       /\ d + e - 53 <= e2
       /\ (e2 = d + e - 53 -> d <= 53 -> Z.pos q * 2 ^ (53 - d) <= Z.pos m2).
Proof.
  intros d He. pose proof (digits_bounds q) as Hq. fold d in Hq.
  assert (0 < d) as Hd by (unfold d; lia).
  unfold binary_round. rewrite fexp64_eq. fold d.
  replace (Z.max (d + e - 53) (-1074)) with (d + e - 53) by lia.
  unfold shl_align.
  destruct (d + e - 53 - e) as [ | n | n] eqn:Hn.
  - assert (d = 53) as Hd53 by lia.
    destruct (binary_round_aux_normal s q e ltac:(fold d; lia) ltac:(fold d; lia))
      as [Hinf | [m2 [e2 [Hfin [Hm2 [He2 [Hlo Heq]]]]]]]; [left; exact Hinf | right].
    fold d in Hlo, Heq. exists m2, e2. repeat split; try assumption; try lia.
    intros H1 H2. specialize (Heq H1). rewrite Hd53 in Heq |- *.
    simpl in Heq |- *. rewrite Z.div_1_r in Heq. lia.
  - destruct (binary_round_aux_normal s q e ltac:(fold d; lia) ltac:(fold d; lia))
      as [Hinf | [m2 [e2 [Hfin [Hm2 [He2 [Hlo Heq]]]]]]]; [left; exact Hinf | right].
    fold d in Hlo, Heq. exists m2, e2. repeat split; try assumption; try lia.
  - assert (Z.pos n = 53 - d) as Hn' by lia.
    pose proof (iter_xO q n) as Hz. rewrite Hn' in Hz.
    set (mz := Pos.iter xO q n) in *.
    assert (Z.pos (digits2_pos mz) = 53) as Hdz.
    { apply digits_unique. rewrite Hz. change (53 - 1) with 52.
      assert (2 ^ 52 = 2 ^ (d - 1) * 2 ^ (53 - d)) as ->
          by (rewrite <- pow2_split by lia; f_equal; lia).
      assert (2 ^ 53 = 2 ^ d * 2 ^ (53 - d)) as ->
          by (rewrite <- pow2_split by lia; f_equal; lia).
      pose proof (pow2_pos (53 - d) ltac:(lia)) as Hc.
      revert Hq Hc. generalize (2 ^ (d - 1)) (2 ^ d) (2 ^ (53 - d)) (Z.pos q).
      intros a b c x Hx Hc. nia. }
    destruct (binary_round_aux_normal s mz (d + e - 53)
                ltac:(rewrite Hdz; lia) ltac:(rewrite Hdz; lia))
      as [Hinf | [m2 [e2 [Hfin [Hm2 [He2 [Hlo Heq]]]]]]]; [left; exact Hinf | right].
    rewrite Hdz in Hlo, Heq.
    exists m2, e2. repeat split; try assumption; try lia.
    intros H1 H2. specialize (Heq ltac:(lia)).
    simpl in Heq. rewrite Z.div_1_r in Heq. lia.
Qed.

(** A normal mantissa at an exponent in range is a valid binary64. *)
Lemma bounded_normal (m : positive) (e : Z) :
  2 ^ 52 <= Z.pos m < 2 ^ 53 -> -1074 <= e <= 971 ->
  bounded prec emax m e = true.
Proof.
  intros Hm He. unfold bounded, canonical_mantissa.
  rewrite (digits_unique m 53 Hm). rewrite fexp64_eq.
  apply andb_true_intro. split.
  - apply Z.eqb_eq. lia.
  - apply Z.leb_le. change (emax - prec) with 971. lia.
Qed.

(** The mantissa of a valid binary64 above the subnormal exponent has
    53 bits. *)
Lemma bounded_digits (m : positive) (e : Z) :
  bounded prec emax m e = true -> -1074 < e ->
  2 ^ 52 <= Z.pos m < 2 ^ 53 /\ e <= 971.
Proof.
  unfold bounded, canonical_mantissa. intros H He.
  apply andb_prop in H as [Hc Hb].
  apply Z.eqb_eq in Hc. apply Z.leb_le in Hb. change (emax - prec) with 971 in Hb.
  rewrite fexp64_eq in Hc.
  pose proof (digits_bounds m) as Hm.
  replace (Z.pos (digits2_pos m)) with 53 in Hm by lia.
  split; [exact Hm | exact Hb].
Qed.

End Binary64.

(** ** Strings *)

Module StrFacts.

Lemma index_from_range (s : string) (c : ascii) (k i : Z) :
  Py.index_from s c k = Ok i -> k <= i < k + Z.of_nat (String.length s).
Proof.
  revert k. induction s as [ | d s IH]; simpl; intros k H.
  - discriminate H.
  - destruct (Ascii.eqb d c).
    + injection H as <-. lia.
    + apply IH in H. lia.
Qed.

Lemma index_range (s : string) (c : ascii) (i : Z) :
  Py.index s c = Ok i -> 0 <= i < Z.of_nat (String.length s).
Proof. intros H. apply index_from_range in H. lia. Qed.

(** [s.index(c)] succeeds exactly when [c in s]. *)
Lemma contains_index_from (s : string) (c : ascii) (k : Z) :
  Py.contains c s = true -> exists i, Py.index_from s c k = Ok i.
Proof.
  revert k. induction s as [ | d s IH]; simpl; intros k H.
  - discriminate H.
  - destruct (Ascii.eqb d c); [eauto | ]. now apply IH.
Qed.

Lemma not_contains_index_from (s : string) (c : ascii) (k : Z) :
  Py.contains c s = false -> Py.index_from s c k = Raise ValueError.
Proof.
  revert k. induction s as [ | d s IH]; simpl; intros k H.
  - reflexivity.
  - destruct (Ascii.eqb d c); [discriminate H | ]. now apply IH.
Qed.

(** A string ends with one character at most. *)
Lemma endswith_unique (s : string) (c d : ascii) :
  Py.endswith s c = true -> Py.endswith s d = true -> c = d.
Proof.
  induction s as [ | a s IH]; simpl.
  - discriminate.
  - destruct s as [ | b s'].
    + intros H1 H2. apply Ascii.eqb_eq in H1, H2. congruence.
    + exact IH.
Qed.

End StrFacts.

(** ** Hand strength *)

Module Strength.

Ltac rank_cases i :=
  let H := fresh "Hrank" in
  assert (i = 0 \/ i = 1 \/ i = 2 \/ i = 3 \/ i = 4 \/ i = 5 \/ i = 6
          \/ i = 7 \/ i = 8 \/ i = 9 \/ i = 10 \/ i = 11 \/ i = 12) as H by lia;
  repeat (destruct H as [H | H]; [subst i | ]); [ .. | subst i].

Lemma pair_value_bounds (i : Z) :
  0 <= i <= 12 -> within 0.85 0.9 (pair_value i) = true.
Proof. intros Hi. rank_cases i; vm_compute; reflexivity. Qed.

Lemma suited_value_bounds (i : Z) :
  0 <= i <= 12 -> within 0.5 0.9 (suited_value i) = true.
Proof. intros Hi. rank_cases i; vm_compute; reflexivity. Qed.

Lemma offsuit_value_bounds (i : Z) :
  0 <= i <= 12 -> within 0.4 0.75 (offsuit_value i) = true.
Proof. intros Hi. rank_cases i; vm_compute; reflexivity. Qed.

Lemma pair_value_increasing (i j : Z) :
  0 <= i -> i < j -> j <= 12 -> (pair_value i <? pair_value j)%float = true.
Proof.
  intros Hi Hij Hj.
  rank_cases i; rank_cases j; try lia; vm_compute; reflexivity.
Qed.

(** Each case stays inside the overall interval. *)
Lemma values_overall (i : Z) :
  0 <= i <= 12 ->
  within 0.4 0.9 (pair_value i) = true
  /\ within 0.4 0.9 (suited_value i) = true
  /\ within 0.4 0.9 (offsuit_value i) = true.
Proof. intros Hi. rank_cases i; vm_compute; auto. Qed.

End Strength.

Module StrengthSpec.
Import Strength.

(** The heuristic on a hand whose first character has rank index [i]. *)
Lemma hand_strength_estimate_eq (h0 : ascii) (rest : string) (i : Z) :
  Py.index ranks_ascending h0 = Ok i ->
  hand_strength_estimate (String h0 rest) =
    Ok (if is_pocket_pair (String h0 rest) then pair_value i
        else if Py.endswith (String h0 rest) "s" then suited_value i
        else if Py.endswith (String h0 rest) "o" then offsuit_value i
        else 0.5%float).
Proof.
  intros Hi. unfold hand_strength_estimate, is_pocket_pair.
  change (Py.item (String h0 rest) 0) with (Ok h0).
  unfold mbind, result_bind.
  unfold ranks_ascending in Hi. rewrite Hi.
  change (String.get 0 (String h0 rest)) with (Some h0).
  destruct ((String.length (String h0 rest) =? 2)%nat
            && match String.get 1 (String h0 rest) with
               | Some h1 => Ascii.eqb h0 h1
               | None => false
               end); [reflexivity | ].
  destruct (Py.endswith (String h0 rest) "s"); [reflexivity | ].
  destruct (Py.endswith (String h0 rest) "o"); reflexivity.
Qed.

(** A first character outside the ranks makes [ranks.index] raise. *)
Lemma hand_strength_estimate_bad_rank (h0 : ascii) (rest : string) :
  Py.contains h0 ranks_ascending = false ->
  hand_strength_estimate (String h0 rest) = Raise ValueError.
Proof.
  intros H. unfold hand_strength_estimate.
  change (Py.item (String h0 rest) 0) with (Ok h0).
  unfold mbind, result_bind, Py.index. unfold ranks_ascending in H.
  now rewrite (StrFacts.not_contains_index_from _ _ 0 H).
Qed.

Lemma rank_index (h0 : ascii) :
  Py.contains h0 ranks_ascending = true ->
  exists i, Py.index ranks_ascending h0 = Ok i /\ 0 <= i <= 12.
Proof.
  intros H. destruct (StrFacts.contains_index_from _ _ 0 H) as [i Hi].
  exists i. split; [exact Hi | ].
  apply StrFacts.index_range in Hi. simpl in Hi. lia.
Qed.

Lemma is_pocket_pair_pocket_pair (r : ascii) : is_pocket_pair (pocket_pair r) = true.
Proof. unfold is_pocket_pair, pocket_pair. simpl. apply Ascii.eqb_refl. Qed.

Lemma pocket_pair_strength_eq (r : ascii) (i : Z) :
  Py.index ranks_ascending r = Ok i ->
  hand_strength_estimate (pocket_pair r) = Ok (pair_value i).
Proof.
  intros Hi. unfold pocket_pair at 1.
  rewrite (hand_strength_estimate_eq _ _ _ Hi).
  fold (pocket_pair r). now rewrite is_pocket_pair_pocket_pair.
Qed.

End StrengthSpec.

(** C7.  Pocket-pair strength: for every rank [r] of the ascending order
    2..A, at index [i], the strength of the pair [rr] is a number of
    [[0.85, 0.90]]; a pair of a higher rank is strictly stronger; the pair
    of deuces has strength 0.85 and the pair of aces 0.90. *)
Theorem pocket_pair_strength :
  (forall r i, Py.index ranks_ascending r = Ok i ->
     exists v, hand_strength_estimate (pocket_pair r) = Ok v
               /\ within 0.85 0.90 v = true)
  /\ (forall r1 r2 i1 i2,
        Py.index ranks_ascending r1 = Ok i1 ->
        Py.index ranks_ascending r2 = Ok i2 ->
        i1 < i2 ->
        exists v1 v2,
          hand_strength_estimate (pocket_pair r1) = Ok v1
          /\ hand_strength_estimate (pocket_pair r2) = Ok v2
          /\ (v1 <? v2)%float = true)
  /\ hand_strength_estimate "22" = Ok 0.85%float
  /\ hand_strength_estimate "AA" = Ok 0.90%float.
Proof.
  split; [ | split; [ | split]].
  - intros r i Hi. exists (pair_value i). split.
    + now apply StrengthSpec.pocket_pair_strength_eq.
    + apply Strength.pair_value_bounds.
      apply StrFacts.index_range in Hi. simpl in Hi. lia.
  - intros r1 r2 i1 i2 H1 H2 Hlt.
    exists (pair_value i1), (pair_value i2).
    split; [now apply StrengthSpec.pocket_pair_strength_eq | ].
    split; [now apply StrengthSpec.pocket_pair_strength_eq | ].
    apply StrFacts.index_range in H1, H2. simpl in H1, H2.
    apply Strength.pair_value_increasing; lia.
  - vm_compute. reflexivity.
  - vm_compute. reflexivity.
Qed.

(** The pairs of sevens and of kings, as an instance. *)
Lemma pocket_pair_strength_witness :
  (exists v, hand_strength_estimate "77" = Ok v /\ within 0.85 0.90 v = true)
  /\ (exists v1 v2, hand_strength_estimate "77" = Ok v1
                    /\ hand_strength_estimate "KK" = Ok v2
                    /\ (v1 <? v2)%float = true).
Proof.
  destruct pocket_pair_strength as [Hrange [Hmono _]].
  split.
  - apply (Hrange "7"%char 5). reflexivity.
  - apply (Hmono "7"%char "K"%char 5 11); [reflexivity | reflexivity | lia].
Defined.

(** C10.  Strength bound: on every non-empty hand whose first character is
    one of [23456789TJQKA] the heuristic returns a number of [[0.4, 0.9]]:
    a pocket pair lands in [[0.85, 0.90]], a suited non-pair in
    [[0.5, 0.9]], an offsuit non-pair in [[0.4, 0.75]], and any other such
    token gives exactly 0.5. *)
Theorem hand_strength_estimate_bounds (hand : string) (h0 : ascii) :
  Py.item hand 0 = Ok h0 ->
  Py.contains h0 ranks_ascending = true ->
  exists v,
    hand_strength_estimate hand = Ok v
    /\ within 0.4 0.9 v = true
    /\ (is_pocket_pair hand = true -> within 0.85 0.90 v = true)
    /\ (is_pocket_pair hand = false -> Py.endswith hand "s" = true ->
        within 0.5 0.9 v = true)
    /\ (is_pocket_pair hand = false -> Py.endswith hand "o" = true ->
        within 0.4 0.75 v = true)
    /\ (is_pocket_pair hand = false -> Py.endswith hand "s" = false ->
        Py.endswith hand "o" = false -> v = 0.5%float).
Proof.
  intros Hfirst Hrank.
  destruct hand as [ | c rest]; [discriminate Hfirst | ].
  injection Hfirst as ->. set (hand := String h0 rest).
  destruct (StrengthSpec.rank_index h0 Hrank) as [i [Hi Hrange]].
  destruct (Strength.values_overall i Hrange) as [Hp [Hs Ho]].
  pose proof (Strength.pair_value_bounds i Hrange) as Hp'.
  pose proof (Strength.suited_value_bounds i Hrange) as Hs'.
  pose proof (Strength.offsuit_value_bounds i Hrange) as Ho'.
  eexists. split; [apply (StrengthSpec.hand_strength_estimate_eq h0 rest i Hi) | ].
  fold hand.
  destruct (is_pocket_pair hand) eqn:Epair.
  { repeat split; intros; try assumption; discriminate. }
  destruct (Py.endswith hand "s") eqn:Es.
  { repeat split; intros; try assumption; try discriminate.
    match goal with
    | Eo : Py.endswith hand "o" = true |- _ =>
        pose proof (StrFacts.endswith_unique hand _ _ Es Eo) as Habs
    end.
    discriminate Habs. }
  destruct (Py.endswith hand "o") eqn:Eo.
  { repeat split; intros; try assumption; discriminate. }
  repeat split; intros; try discriminate; vm_compute; reflexivity.
Qed.

(** The hands [KQs], [T9o], [55] and [A7], as instances. *)
Lemma hand_strength_estimate_bounds_witness :
  (exists v, hand_strength_estimate "KQs" = Ok v /\ within 0.5 0.9 v = true)
  /\ (exists v, hand_strength_estimate "T9o" = Ok v /\ within 0.4 0.75 v = true)
  /\ (exists v, hand_strength_estimate "55" = Ok v /\ within 0.85 0.90 v = true)
  /\ hand_strength_estimate "A7" = Ok 0.5%float.
Proof.
  split; [ | split; [ | split]].
  - destruct (hand_strength_estimate_bounds "KQs" "K" eq_refl eq_refl)
      as [v [Hv [_ [_ [Hs _]]]]].
    exists v. split; [exact Hv | apply Hs; reflexivity].
  - destruct (hand_strength_estimate_bounds "T9o" "T" eq_refl eq_refl)
      as [v [Hv [_ [_ [_ [Ho _]]]]]].
    exists v. split; [exact Hv | apply Ho; reflexivity].
  - destruct (hand_strength_estimate_bounds "55" "5" eq_refl eq_refl)
      as [v [Hv [_ [Hp _]]]].
    exists v. split; [exact Hv | apply Hp; reflexivity].
  - destruct (hand_strength_estimate_bounds "A7" "A" eq_refl eq_refl)
      as [v [Hv [_ [_ [_ [_ Hd]]]]]].
    rewrite Hv. f_equal. apply Hd; reflexivity.
Defined.

(** C5, as the program has it.  A token of two characters that is not a
    pocket pair and ends in neither [s] nor [o] gets the default 0.5 when
    its first character is one of [23456789TJQKA]; when it is not,
    [ranks.index] raises [ValueError] and no strength is returned. *)
Theorem hand_strength_estimate_default (hand : string) (h0 : ascii) :
  String.length hand = 2%nat ->
  is_pocket_pair hand = false ->
  Py.endswith hand "s" = false ->
  Py.endswith hand "o" = false ->
  Py.item hand 0 = Ok h0 ->
  (Py.contains h0 ranks_ascending = true ->
     hand_strength_estimate hand = Ok 0.5%float)
  /\ (Py.contains h0 ranks_ascending = false ->
     hand_strength_estimate hand = Raise ValueError).
Proof.
  intros _ Hpair Hs Ho Hfirst.
  destruct hand as [ | c rest]; [discriminate Hfirst | ].
  injection Hfirst as ->. split.
  - intros Hrank.
    destruct (StrengthSpec.rank_index h0 Hrank) as [i [Hi _]].
    rewrite (StrengthSpec.hand_strength_estimate_eq _ _ _ Hi).
    now rewrite Hpair, Hs, Ho.
  - intros Hbad. now apply StrengthSpec.hand_strength_estimate_bad_rank.
Qed.

(** The tokens [A7] (default) and [XY] (raises), as instances. *)
Lemma hand_strength_estimate_default_witness :
  hand_strength_estimate "A7" = Ok 0.5%float
  /\ hand_strength_estimate "XY" = Raise ValueError.
Proof.
  split.
  - apply (hand_strength_estimate_default "A7" "A"); reflexivity.
  - apply (hand_strength_estimate_default "XY" "X"); reflexivity.
Defined.

(** C5 as stated fails: [XY] has two characters, is not a pocket pair and
    matches no strength case, yet the call raises instead of returning the
    default. *)
Lemma hand_strength_estimate_default_counterexample :
  String.length "XY" = 2%nat
  /\ is_pocket_pair "XY" = false
  /\ Py.endswith "XY" "s" = false
  /\ Py.endswith "XY" "o" = false
  /\ hand_strength_estimate "XY" = Raise ValueError
  /\ hand_strength_estimate "XY" <> Ok 0.5%float.
Proof. repeat split; try reflexivity. vm_compute. discriminate. Qed.

(** ** Range parser *)

Module Parser.

(** A token of four characters meets neither length test of the loop and
    is appended verbatim, with or without a [+]. *)
Lemma parse_token_four_chars (token : string) (hands : list string) :
  String.length token = 4%nat ->
  parse_token token hands = Ok (hands ++ [token])%list.
Proof.
  intros Hlen. unfold parse_token. rewrite Hlen. simpl.
  rewrite !andb_false_r. reflexivity.
Qed.

(** A token of three characters with a [+] enters the branch commented
    [A9o+]: its third character is taken for the suit tag. *)
Example parse_hand_range_A9_plus :
  parse_hand_range_set "A9+"
  = Ok (list_to_set ["A9+"; "AT+"; "AJ+"; "AQ+"; "AK+"; "AA+"]).
Proof. vm_compute. reflexivity. Qed.

(** A token of two characters with a [+] enters the branch commented
    [22+]. *)
Example parse_hand_range_2_plus :
  parse_hand_range_set "2+"
  = Ok (list_to_set ["22"; "33"; "44"; "55"; "66"; "77"; "88"; "99";
                     "TT"; "JJ"; "QQ"; "KK"; "AA"]).
Proof. vm_compute. reflexivity. Qed.

End Parser.

(** C3, on the program.  The token [A9o+] has four characters, so it is kept
    verbatim: the result is the one token [A9o+], and none of the five
    hands [A9o], [ATo], [AJo], [AQo], [AKo] is in it. *)
Theorem parse_hand_range_A9o_plus :
  parse_hand_range "A9o+" = Ok ["A9o+"]
  /\ parse_hand_range_set "A9o+" = Ok {[ "A9o+" ]}
  /\ forall s, parse_hand_range_set "A9o+" = Ok s ->
       Forall (fun h => h ∉ s) ["A9o"; "ATo"; "AJo"; "AQo"; "AKo"].
Proof.
  split; [vm_compute; reflexivity | ].
  split; [vm_compute; reflexivity | ].
  intros s Hs. vm_compute in Hs. injection Hs as <-.
  repeat constructor; intros Hin; vm_compute in Hin; discriminate Hin.
Qed.

(** C4, on the program.  The token [22+] has three characters, so it takes
    the branch of the non-pair ranges: the result is the thirteen tokens
    [2r+] for every rank [r], and no pocket pair is in it. *)
Theorem parse_hand_range_22_plus :
  parse_hand_range_set "22+"
  = Ok (list_to_set ["22+"; "23+"; "24+"; "25+"; "26+"; "27+"; "28+";
                     "29+"; "2T+"; "2J+"; "2Q+"; "2K+"; "2A+"])
  /\ (exists l, parse_hand_range "22+" = Ok l /\ length l = 13%nat)
  /\ forall s, parse_hand_range_set "22+" = Ok s ->
       Forall (fun h => h ∉ s)
         ["22"; "33"; "44"; "55"; "66"; "77"; "88"; "99";
          "TT"; "JJ"; "QQ"; "KK"; "AA"].
Proof.
  split; [vm_compute; reflexivity | ].
  split; [eexists; split; vm_compute; reflexivity | ].
  intros s Hs. vm_compute in Hs. injection Hs as <-.
  repeat constructor; intros Hin; vm_compute in Hin; discriminate Hin.
Qed.

(** ** Chart lookup *)

Module Rounding.

Lemma round_half_even_rounds_to (m e : Z) :
  0 <= m -> rounds_to m e (Py.round_half_even m e).
Proof.
  intros Hm. unfold rounds_to, Py.round_half_even.
  destruct (0 <=? e) eqn:He; [reflexivity | ].
  apply Z.leb_gt in He.
  assert (0 < 2 ^ (- e)) as Hd by (apply Z.pow_pos_nonneg; lia).
  set (d := 2 ^ (- e)) in *. cbv zeta.
  pose proof (Z.div_mod m d ltac:(lia)) as Hdiv.
  pose proof (Z.mod_pos_bound m d Hd) as Hmod.
  set (q := m / d) in *. set (r := m mod d) in *.
  clearbody q r d.
  assert (m - q * d = r) as Hq by lia.
  assert (m - (q + 1) * d = r - d) as Hq1 by lia.
  destruct (2 * r ?= d) eqn:Hcmp.
  - apply Z.compare_eq in Hcmp.
    destruct (Z.even q) eqn:Heven.
    + rewrite Hq. split; [lia | intros _; exact Heven].
    + rewrite Hq1. split; [lia | ]. intros _.
      rewrite Z.even_add, Heven. reflexivity.
  - rewrite Z.compare_lt_iff in Hcmp. rewrite Hq.
    split; [lia | intros Htie; exfalso; lia].
  - rewrite Z.compare_gt_iff in Hcmp. rewrite Hq1.
    split; [lia | intros Htie; exfalso; lia].
Qed.

(** On a finite float [round] returns the nearest integer. *)
Lemma round_finite (x : float) :
  is_finite x = true ->
  exists n, Py.round x = Ok n /\ nearest_integer x n.
Proof.
  unfold is_finite, Py.round, nearest_integer.
  destruct (Prim2SF x) as [s | s | | s m e]; try discriminate; intros _.
  - exists 0. split; reflexivity.
  - eexists. split; [reflexivity | ].
    eexists. split; [reflexivity | ].
    apply round_half_even_rounds_to. lia.
Qed.

(** On a NaN or an infinity [round] raises. *)
Lemma round_not_finite (x : float) :
  is_finite x = false ->
  Py.round x = Raise ValueError \/ Py.round x = Raise OverflowError.
Proof.
  unfold is_finite, Py.round.
  destruct (Prim2SF x) as [s | s | | s m e]; try discriminate; auto.
Qed.

(** Half-way stacks go to the even bucket. *)
Example round_ties :
  Py.round 9.5 = Ok 10 /\ Py.round 10.5 = Ok 10 /\ Py.round 11.5 = Ok 12.
Proof. repeat split. Qed.

End Rounding.

(** C8, as the program has it.  For a spot whose [stacks_bb] is a finite
    float, [eval_spot_chart] rounds it to the nearest integer (ties to
    even) to form the key, returns the mapped decision when the key and the
    hand are both present and ["N/A"] when either is absent, and does not
    raise.  On a NaN or an infinite [stacks_bb] the rounding raises. *)
Theorem eval_spot_chart_lookup (hand : string) (spot : Spot) (chart : Chart) :
  (is_finite (stacks_bb spot) = true ->
   exists bucket,
     Py.round (stacks_bb spot) = Ok bucket
     /\ nearest_integer (stacks_bb spot) bucket
     /\ let key := (bucket, position spot, action_before spot) in
        (forall row d, chart !! key = Some row -> row !! hand = Some d ->
           eval_spot_chart hand spot chart = Ok d)
        /\ (forall row, chart !! key = Some row -> row !! hand = None ->
           eval_spot_chart hand spot chart = Ok "N/A")
        /\ (chart !! key = None ->
           eval_spot_chart hand spot chart = Ok "N/A"))
  /\ (is_finite (stacks_bb spot) = false ->
      eval_spot_chart hand spot chart = Raise ValueError
      \/ eval_spot_chart hand spot chart = Raise OverflowError).
Proof.
  split.
  - intros Hfin.
    destruct (Rounding.round_finite _ Hfin) as [bucket [Hround Hnear]].
    exists bucket. split; [exact Hround | ]. split; [exact Hnear | ].
    unfold eval_spot_chart. rewrite Hround. unfold mbind, result_bind.
    cbv zeta. split; [ | split].
    + intros row d Hrow Hd. rewrite Hrow, Hd. reflexivity.
    + intros row Hrow Hd. rewrite Hrow, Hd. reflexivity.
    + intros Hrow. rewrite Hrow. reflexivity.
  - intros Hnot. unfold eval_spot_chart.
    destruct (Rounding.round_not_finite _ Hnot) as [-> | ->]; auto.
Qed.

(** The lookup at the scenario spot on the built-in chart: a hit and a
    miss. *)
Lemma eval_spot_chart_lookup_witness :
  eval_spot_chart "A2s" scenario_spot load_chart_default = Ok "PUSH"
  /\ eval_spot_chart "QQ" scenario_spot load_chart_default = Ok "N/A".
Proof.
  destruct (eval_spot_chart_lookup "A2s" scenario_spot load_chart_default)
    as [Hfin _].
  destruct (eval_spot_chart_lookup "QQ" scenario_spot load_chart_default)
    as [Hfin' _].
  destruct (Hfin eq_refl) as [bucket [Hround [_ [Hhit _]]]].
  destruct (Hfin' eq_refl) as [bucket' [Hround' [_ [_ [Hmiss _]]]]].
  vm_compute in Hround. injection Hround as <-.
  vm_compute in Hround'. injection Hround' as <-.
  split.
  - eapply Hhit; vm_compute; reflexivity.
  - eapply Hmiss; vm_compute; reflexivity.
Defined.

(** C8 as stated fails: with [stacks_bb = nan] (a float that [--stacks-bb]
    accepts) the lookup raises. *)
Lemma eval_spot_chart_counterexample :
  eval_spot_chart "A2s"
    {| stacks_bb := nan; position := "SB"; players_left := 8;
       action_before := "none"; sb := 0.5; bb := 1.0; ante := 0.125;
       bb_ante := true; pko := false; bounty_self := 0; bounty_op := 0;
       coverage := "none" |}
    load_chart_default
  = Raise ValueError.
Proof. vm_compute. reflexivity. Qed.

(** ** EV formula *)

Module EV.

(** The returned pair, whenever the strength and the int-to-float
    conversions of the formula succeed. *)
Lemma eval_spot_ev_eq (hand : string) (spot : Spot) (iterations : Z)
    (seed : option Z) (g : rng) (equity k n : float) :
  hand_strength_estimate hand = Ok equity ->
  Py.to_float (9 - players_left spot) = Ok k ->
  bb_ante spot = true \/ Py.to_float (players_left spot) = Ok n ->
  eval_spot_ev hand spot iterations seed g
  = (seed_rng seed g, Ok (Spec.ev_push equity k n spot, 0%float)).
Proof.
  intros Heq Hk Hn. unfold eval_spot_ev. f_equal.
  rewrite Heq, Hk. unfold mbind, result_bind.
  unfold Spec.ev_push, Spec.ev_push_plain, Spec.pot_pre, Spec.p_call,
    Spec.bounty_applies, Spec.bounty_term.
  destruct (bb_ante spot) eqn:Hante.
  - destruct (pko spot && String.eqb (coverage spot) "self"); reflexivity.
  - destruct Hn as [Hn | Hn]; [discriminate Hn | ]. rewrite Hn.
    destruct (pko spot && String.eqb (coverage spot) "self"); reflexivity.
Qed.

(** The result does not depend on [iterations], [seed] and the generator. *)
Lemma eval_spot_ev_result (hand : string) (spot : Spot) (iterations : Z)
    (seed : option Z) (g : rng) :
  snd (eval_spot_ev hand spot iterations seed g)
  = snd (eval_spot_ev hand spot 10000 None SystemSeeded).
Proof. reflexivity. Qed.

(** What a truthy seed does change is the process-wide generator. *)
Lemma eval_spot_ev_reseeds (hand : string) (spot : Spot) (iterations n : Z)
    (g : rng) :
  n <> 0 -> fst (eval_spot_ev hand spot iterations (Some n) g) = Seeded n.
Proof.
  intros Hn. unfold eval_spot_ev, seed_rng. simpl.
  destruct (n =? 0) eqn:E; [apply Z.eqb_eq in E; contradiction | reflexivity].
Qed.

Lemma eval_spot_ev_falsy_seed (hand : string) (spot : Spot) (iterations : Z)
    (g : rng) :
  fst (eval_spot_ev hand spot iterations None g) = g
  /\ fst (eval_spot_ev hand spot iterations (Some 0) g) = g.
Proof. split; reflexivity. Qed.

End EV.

(** C9.  Determinism of the EV estimate: for every hand and spot, whatever
    the two values of [iterations], the two values of [seed] ([None]
    included) and the states of the generator, [eval_spot_ev] returns the
    same pair (or raises the same exception). *)
Theorem eval_spot_ev_deterministic (hand : string) (spot : Spot)
    (iterations1 iterations2 : Z) (seed1 seed2 : option Z) (g1 g2 : rng) :
  snd (eval_spot_ev hand spot iterations1 seed1 g1)
  = snd (eval_spot_ev hand spot iterations2 seed2 g2).
Proof.
  rewrite (EV.eval_spot_ev_result hand spot iterations1 seed1 g1).
  rewrite (EV.eval_spot_ev_result hand spot iterations2 seed2 g2).
  reflexivity.
Qed.

(** ** The call probability below zero *)

Module PCall.
Import Binary64.

(** The float of an int at most [-6] is a normal number at most [-6.0]. *)
Lemma to_float_at_most_minus_six (z : Z) (k : float) :
  z <= -6 -> Py.to_float z = Ok k ->
  exists m e,
    Prim2SF k = S754_finite true m e
    /\ (-50 < e \/ (e = -50 /\ 6 * 2 ^ 50 <= Z.pos m)).
Proof.
  intros Hz. destruct z as [ | p | p]; try lia.
  unfold Py.to_float, Py.float_of_Z.
  change (binary_normalize prec emax (Z.neg p) 0 false)
    with (binary_round prec emax true p 0).
  pose proof (digits_bounds p) as Hp.
  set (d := Z.pos (digits2_pos p)) in *.
  assert (3 <= d) as Hd.
  { destruct (Z.le_gt_cases 3 d) as [H | H]; [exact H | exfalso].
    assert (2 ^ d <= 2 ^ 2) by (apply Z.pow_le_mono_r; lia).
    change (2 ^ 2) with 4 in *. lia. }
  destruct (binary_round_normal true p 0 ltac:(fold d; lia))
    as [Hinf | [m2 [e2 [Hfin [Hm2 [He2 [Hlo Heq]]]]]]].
  - rewrite Hinf. discriminate.
  - fold d in Hlo, Heq. rewrite Hfin. intros Hk.
    assert (k = SF2Prim (S754_finite true m2 e2)) as -> by congruence.
    exists m2, e2. split.
    + apply Prim2SF_SF2Prim. simpl. apply bounded_normal; [exact Hm2 | lia].
    + destruct (Z.eq_dec e2 (-50)) as [He | He]; [right | left; lia].
      split; [exact He | ].
      assert (d = 3) as Hd3 by lia.
      specialize (Heq ltac:(lia) ltac:(lia)). rewrite Hd3 in Heq, Hp.
      change (2 ^ (53 - 3)) with (2 ^ 50) in Heq.
      change (2 ^ (3 - 1)) with 4 in Hp. change (2 ^ 3) with 8 in Hp.
      change (2 ^ 50) with 1125899906842624 in *. lia.
Qed.

(** One twentieth of a normal number at most [-6.0] is below [-0.25]. *)
Lemma twentieth_below_minus_quarter (k : float) (m : positive) (e : Z) :
  Prim2SF k = S754_finite true m e ->
  -50 < e \/ (e = -50 /\ 6 * 2 ^ 50 <= Z.pos m) ->
  Prim2SF (0.05 * k) = S754_infinity true
  \/ exists m2 e2,
       Prim2SF (0.05 * k) = S754_finite true m2 e2
       /\ (-54 < e2 \/ (e2 = -54 /\ 2 ^ 52 < Z.pos m2)).
Proof.
  intros Hk Hsix.
  pose proof (Prim2SF_valid k) as Hvalid. rewrite Hk in Hvalid. simpl in Hvalid.
  destruct (bounded_digits m e Hvalid ltac:(lia)) as [Hm He].
  rewrite mul_spec, Hk.
  replace (Prim2SF 0.05) with (S754_finite false 7205759403792794 (-57))
    by (vm_compute; reflexivity).
  unfold SF64mul, SFmul. simpl xorb.
  set (mm := (7205759403792794 * m)%positive).
  assert (Z.pos mm = 7205759403792794 * Z.pos m) as Hmm by (unfold mm; lia).
  pose proof (digits_bounds mm) as Hd.
  set (d := Z.pos (digits2_pos mm)) in *.
  change (2 ^ 52) with 4503599627370496 in *.
  change (2 ^ 53) with 9007199254740992 in *.
  change (2 ^ 50) with 1125899906842624 in *.
  assert (d = 105 \/ d = 106) as Hcase.
  { destruct (Z.le_gt_cases d 104) as [H | H].
    - exfalso. assert (2 ^ d <= 2 ^ 104) by (apply Z.pow_le_mono_r; lia).
      change (2 ^ 104) with 20282409603651670423947251286016 in *. lia.
    - destruct (Z.le_gt_cases 107 d) as [H' | H']; [exfalso | lia].
      assert (2 ^ 106 <= 2 ^ (d - 1)) by (apply Z.pow_le_mono_r; lia).
      change (2 ^ 106) with 81129638414606681695789005144064 in *. lia. }
  destruct (binary_round_aux_normal true mm (-57 + e)
              ltac:(fold d; lia) ltac:(fold d; lia))
    as [Hinf | [m2 [e2 [Hfin [Hm2 [He2 [Hlo Heq]]]]]]]; [left; exact Hinf | right].
  fold d in Hlo, Heq. exists m2, e2. split; [exact Hfin | ].
  change (2 ^ 52) with 4503599627370496 in *.
  change (2 ^ 53) with 9007199254740992 in *.
  destruct Hcase as [Hc | Hc]; rewrite Hc in *.
  - change (2 ^ (105 - 1)) with 20282409603651670423947251286016 in Hd.
    change (2 ^ 105) with 40564819207303340847894502572032 in Hd.
    change (2 ^ (105 - 53)) with 4503599627370496 in Heq.
    destruct (Z.eq_dec e2 (-54)) as [He54 | He54]; [right | left; lia].
    split; [exact He54 | ].
    specialize (Heq ltac:(lia)). rewrite Hmm in Heq.
    assert (7205759403792794 <= 7205759403792794 * Z.pos m / 4503599627370496)
      by (apply Z.div_le_lower_bound; lia).
    lia.
  - change (2 ^ (106 - 1)) with 40564819207303340847894502572032 in Hd.
    change (2 ^ 106) with 81129638414606681695789005144064 in Hd.
    change (2 ^ (106 - 53)) with 9007199254740992 in Heq.
    destruct (Z.eq_dec e2 (-54)) as [He54 | He54]; [right | left; lia].
    split; [exact He54 | ].
    specialize (Heq ltac:(lia)). rewrite Hmm in Heq.
    assert (4503599627370497 <= 7205759403792794 * Z.pos m / 9007199254740992)
      by (apply Z.div_le_lower_bound; lia).
    lia.
Qed.

(** A quarter plus a number below [-0.25] is below zero. *)
Lemma quarter_plus_negative (x : float) :
  Prim2SF x = S754_infinity true
  \/ (exists m e, Prim2SF x = S754_finite true m e
                  /\ (-54 < e \/ (e = -54 /\ 2 ^ 52 < Z.pos m))) ->
  (0.25 + x <? 0)%float = true.
Proof.
  intros Hx. rewrite ltb_spec, add_spec.
  replace (Prim2SF 0.25) with (S754_finite false 4503599627370496 (-54))
    by (vm_compute; reflexivity).
  replace (Prim2SF 0) with (S754_zero false) by (vm_compute; reflexivity).
  destruct Hx as [Hx | [m [e [Hx He]]]].
  { rewrite Hx. reflexivity. }
  pose proof (Prim2SF_valid x) as Hvalid. rewrite Hx in Hvalid. simpl in Hvalid.
  destruct (bounded_digits m e Hvalid ltac:(lia)) as [Hm He'].
  rewrite Hx. unfold SF64add, SFadd.
  replace (Z.min (-54) e) with (-54) by lia.
  change (fst (shl_align 4503599627370496 (-54) (-54))) with 4503599627370496%positive.
  change (2 ^ 52) with 4503599627370496 in *.
  change (2 ^ 53) with 9007199254740992 in *.
  assert (4503599627370496 < Z.pos (fst (shl_align m e (-54)))) as Hshift.
  { unfold shl_align. destruct (-54 - e) as [ | n | n] eqn:Hn; simpl fst; try lia.
    rewrite iter_xO. pose proof (pow2_pos (Z.pos n) ltac:(lia)).
    assert (2 ^ 1 <= 2 ^ Z.pos n) by (apply Z.pow_le_mono_r; lia).
    change (2 ^ 1) with 2 in *. nia. }
  set (y := fst (shl_align m e (-54))) in *.
  unfold cond_Zopp.
  destruct (Z.pos 4503599627370496 + - Z.pos y) as [ | q | q] eqn:Hsum; try lia.
  change (binary_normalize prec emax (Z.neg q) (-54) false)
    with (binary_round prec emax true q (-54)).
  destruct (binary_round_normal true q (-54)
              ltac:(pose proof (Pos2Z.is_pos (digits2_pos q)); lia))
    as [Hinf | [m2 [e2 [Hfin _]]]].
  - rewrite Hinf. reflexivity.
  - rewrite Hfin. reflexivity.
Qed.

(** [p_call] is below zero as soon as [9 - players_left] is at most [-6]. *)
Lemma p_call_negative (z : Z) (k : float) :
  z <= -6 -> Py.to_float z = Ok k -> (Spec.p_call k <? 0)%float = true.
Proof.
  intros Hz Hk.
  destruct (to_float_at_most_minus_six z k Hz Hk) as [m [e [Hm He]]].
  pose proof (twentieth_below_minus_quarter k m e Hm He) as Hmul.
  assert ((0.25 + 0.05 * k <? 0)%float = true) as Hneg.
  { apply quarter_plus_negative.
    destruct Hmul as [Hinf | [m2 [e2 [Hfin Hlow]]]]; [left; exact Hinf | right].
    exists m2, e2. split; assumption. }
  unfold Spec.p_call, Py.min.
  rewrite (FloatFacts.negative_not_above_half _ Hneg). exact Hneg.
Qed.

End PCall.

(** C2.  EV formula: whenever the hand has a strength [equity] and the
    ints [9 - players_left] and (for a per-player ante) [players_left]
    convert to the floats [k] and [n], [eval_spot_ev] returns [ev_fold = 0]
    and [ev_push] computed as
    [p_call = min(0.25 + 0.05 * k, 0.5)],
    [pot_pre = sb + bb + (bb if bb_ante else ante * n)],
    [(1 - p_call) * pot_pre
     + p_call * (equity * (pot_pre + stacks_bb) - (1 - equity) * stacks_bb)],
    plus [equity * bounty_op / 10] exactly when [pko] holds and [coverage]
    is ["self"]; [p_call] has no lower bound and is negative when
    [players_left > 14]. *)
Theorem eval_spot_ev_formula (hand : string) (spot : Spot) (iterations : Z)
    (seed : option Z) (g : rng) (equity k n : float) :
  hand_strength_estimate hand = Ok equity ->
  Py.to_float (9 - players_left spot) = Ok k ->
  bb_ante spot = true \/ Py.to_float (players_left spot) = Ok n ->
  let p_call := Py.min (0.25 + 0.05 * k)%float 0.5%float in
  let pot_pre :=
    (sb spot + bb spot + (if bb_ante spot then bb spot else ante spot * n))%float in
  let plain :=
    ((1 - p_call) * pot_pre
     + p_call * (equity * (pot_pre + stacks_bb spot)
                 - (1 - equity) * stacks_bb spot))%float in
  snd (eval_spot_ev hand spot iterations seed g)
  = Ok (if pko spot && String.eqb (coverage spot) "self"
        then (plain + equity * bounty_op spot / 10)%float
        else plain,
        0%float)
  /\ (14 < players_left spot -> (p_call <? 0)%float = true).
Proof.
  intros Heq Hk Hn p_call pot_pre plain. split.
  - rewrite (EV.eval_spot_ev_eq hand spot iterations seed g equity k n Heq Hk Hn).
    reflexivity.
  - intros Hmany. apply (PCall.p_call_negative (9 - players_left spot) k); [lia | exact Hk].
Qed.

(** The formula at the scenario spot, and at a knockout table of fifteen
    players where the bounty term is added and [p_call] is negative. *)
Lemma eval_spot_ev_formula_witness :
  snd (eval_spot_ev "A2s" scenario_spot 10000 None SystemSeeded)
  = Ok (4.824999999999999%float, 0%float)
  /\ snd (eval_spot_ev "KQs" knockout_spot 500 (Some 42) SystemSeeded)
     = Ok (3.0133333333333336%float, 0%float)
  /\ (Py.min (0.25 + 0.05 * -6) 0.5 <? 0)%float = true.
Proof.
  destruct (eval_spot_ev_formula "A2s" scenario_spot 10000 None SystemSeeded
              0.9%float 1%float 8%float)
    as [Hev _];
    [vm_compute; reflexivity | vm_compute; reflexivity | left; reflexivity | ].
  destruct (eval_spot_ev_formula "KQs" knockout_spot 500 (Some 42) SystemSeeded
              (0.5 + Py.truediv 11 12 * 0.4)%float (-6)%float 15%float)
    as [Hev' Hneg];
    [vm_compute; reflexivity | vm_compute; reflexivity
     | right; vm_compute; reflexivity | ].
  cbv zeta in Hev, Hev', Hneg.
  split; [ | split].
  - rewrite Hev. vm_compute. reflexivity.
  - rewrite Hev'. vm_compute. reflexivity.
  - apply Hneg. vm_compute. reflexivity.
Defined.

(** ** Blending rule *)

Module Blend.


Lemma advisor_mode_eq (chart : Chart) (hand : string) (spot : Spot)
    (iterations : Z) (seed : option Z) (g g' : rng)
    (dc : string) (evp evf : float) :
  eval_spot_chart hand spot chart = Ok dc ->
  eval_spot_ev hand spot iterations seed g = (g', Ok (evp, evf)) ->
  advisor_mode chart hand spot iterations seed g
  = (g', Ok {| hand := hand; decision_chart := dc;
               ev_push := evp; ev_fold := evf;
               decision_ev := Spec.decision_ev evp evf;
               final := if String.eqb dc "N/A"
                           || (0.15 <? abs (evp - evf))%float
                        then Spec.decision_ev evp evf else dc |}).
Proof.
  intros Hc He. unfold advisor_mode. rewrite Hc, He. reflexivity.
Qed.

End Blend.



(** ** The concrete scenario *)

(** C6, as the program has it.  At the scenario spot (10bb, SB, no action
    before, 8 players, sb 0.5, bb 1.0, ante 0.125 paid as a big-blind ante,
    no knockout) with the hand [A2s]: the built-in chart answers PUSH; the
    equity is 0.9, [p_call] is 0.3 and [pot_pre] is 2.5; [ev_fold] is 0 and
    [ev_push] is the binary64 number 4.824999999999999, the one just below
    4.825 (so 4.825 at three decimals); the final decision is PUSH. *)
Theorem scenario_A2s (iterations : Z) (seed : option Z) (g : rng) :
  eval_spot_chart "A2s" scenario_spot load_chart_default = Ok "PUSH"
  /\ hand_strength_estimate "A2s" = Ok 0.9%float
  /\ Py.to_float (9 - players_left scenario_spot) = Ok 1%float
  /\ Spec.p_call 1 = 0.30%float
  /\ Spec.pot_pre scenario_spot 8 = 2.5%float
  /\ snd (eval_spot_ev "A2s" scenario_spot iterations seed g)
     = Ok (4.824999999999999%float, 0%float)
  /\ next_up 4.824999999999999 = 4.825%float
  /\ (4.8245 <? 4.824999999999999)%float = true
  /\ (4.824999999999999 <? 4.8255)%float = true
  /\ exists adv,
       snd (advisor_mode load_chart_default "A2s" scenario_spot
              iterations seed g) = Ok adv
       /\ decision_chart adv = "PUSH"
       /\ decision_ev adv = "PUSH"
       /\ final adv = "PUSH".
Proof.
  repeat match goal with |- _ /\ _ => split end;
    try (vm_compute; reflexivity).
  unfold advisor_mode.
    replace (eval_spot_chart "A2s" scenario_spot load_chart_default)
      with (Ok "PUSH" : result string) by (vm_compute; reflexivity).
    destruct (eval_spot_ev "A2s" scenario_spot iterations seed g)
      as [g' ev] eqn:Hev.
    pose proof (EV.eval_spot_ev_result "A2s" scenario_spot iterations seed g)
      as Hres.
    rewrite Hev in Hres. simpl in Hres. subst ev.
    eexists. split; [vm_compute; reflexivity | ].
  repeat split.
Qed.

(** C6 as stated fails in one figure: the [ev_push] that [eval_spot_ev]
    returns is not the float 4.825 but the one below it. *)
Lemma scenario_A2s_counterexample :
  exists evp,
    snd (eval_spot_ev "A2s" scenario_spot 10000 None SystemSeeded)
    = Ok (evp, 0%float)
    /\ (evp =? 4.825)%float = false
    /\ (evp <? 4.825)%float = true.
Proof. eexists. repeat split; vm_compute; reflexivity. Qed.

(** * Further properties of the program *)

(** ** Range parser: tokens, separators, composition *)

Module ParserFacts.

Lemma append_nil (t : string) : EmptyString ++ t = t.
Proof. reflexivity. Qed.

Lemma append_cons (a : ascii) (s t : string) :
  String a s ++ t = String a (s ++ t).
Proof. reflexivity. Qed.

Lemma contains_app (c : ascii) (s1 s2 : string) :
  Py.contains c (s1 ++ s2) = Py.contains c s1 || Py.contains c s2.
Proof.
  induction s1 as [ | d s1 IH]; [reflexivity | ].
  rewrite append_cons. simpl. rewrite IH. now rewrite orb_assoc.
Qed.

Lemma remove_app (c : ascii) (s1 s2 : string) :
  Py.remove c (s1 ++ s2) = Py.remove c s1 ++ Py.remove c s2.
Proof.
  induction s1 as [ | d s1 IH]; [reflexivity | ].
  rewrite append_cons. simpl.
  destruct (Ascii.eqb d c); [exact IH | ].
  rewrite append_cons. now rewrite IH.
Qed.

Lemma remove_absent (c : ascii) (s : string) :
  Py.contains c s = false -> Py.remove c s = s.
Proof.
  induction s as [ | d s IH]; simpl; [reflexivity | ].
  destruct (Ascii.eqb d c); simpl; [discriminate | ].
  intros H. now rewrite IH.
Qed.

Lemma contains_remove (c d : ascii) (s : string) :
  Py.contains c s = false -> Py.contains c (Py.remove d s) = false.
Proof.
  induction s as [ | a s IH]; simpl; [reflexivity | ].
  intros H. apply orb_false_elim in H as [Ha Hs].
  destruct (Ascii.eqb a d); simpl; [now apply IH | ].
  rewrite Ha. now apply IH.
Qed.

(** Nothing is left of the removed character. *)
Lemma remove_gone (c : ascii) (s : string) :
  Py.contains c (Py.remove c s) = false.
Proof.
  induction s as [ | a s IH]; simpl; [reflexivity | ].
  destruct (Ascii.eqb a c) eqn:E; simpl; [exact IH | ].
  now rewrite E, IH.
Qed.

Lemma app_assoc_char (cur : string) (d : ascii) (s : string) :
  (cur ++ String d EmptyString) ++ s = cur ++ String d s.
Proof.
  induction cur as [ | a cur IH]; [reflexivity | ].
  rewrite !append_cons. now rewrite IH.
Qed.

Lemma app_empty_r (s : string) : s ++ EmptyString = s.
Proof.
  induction s as [ | a s IH]; [reflexivity | ].
  rewrite append_cons. now rewrite IH.
Qed.

(** Without a separator the string is one piece. *)
Lemma split_acc_absent (c : ascii) (s cur : string) :
  Py.contains c s = false -> Py.split_acc c s cur = [cur ++ s].
Proof.
  revert cur. induction s as [ | d s IH]; simpl; intros cur H.
  - now rewrite app_empty_r.
  - destruct (Ascii.eqb d c); simpl in H; [discriminate | ].
    rewrite IH by exact H. now rewrite app_assoc_char.
Qed.

(** Splitting at a separator splits the list of pieces. *)
Lemma split_acc_app (c : ascii) (s1 s2 cur : string) :
  Py.split_acc c (s1 ++ String c s2) cur
  = (Py.split_acc c s1 cur ++ Py.split_acc c s2 EmptyString)%list.
Proof.
  revert cur. induction s1 as [ | d s1 IH]; intros cur.
  - rewrite append_nil. simpl. now rewrite Ascii.eqb_refl.
  - rewrite append_cons. simpl.
    destruct (Ascii.eqb d c); simpl; now rewrite IH.
Qed.

Lemma split_acc_forall (c sep : ascii) (s cur : string) :
  Py.contains c cur = false -> Py.contains c s = false ->
  Forall (fun t => Py.contains c t = false) (Py.split_acc sep s cur).
Proof.
  revert cur. induction s as [ | d s IH]; simpl; intros cur Hcur Hs.
  - now constructor.
  - apply orb_false_elim in Hs as [Hd Hs].
    destruct (Ascii.eqb d sep).
    + constructor; [exact Hcur | now apply IH].
    + apply IH; [ | exact Hs]. rewrite contains_app, Hcur. simpl.
      now rewrite Hd.
Qed.

(** The loop body only appends to the accumulator. *)
Lemma parse_token_acc (token : string) (hands : list string) :
  parse_token token hands
  = match parse_token token [] with
    | Ok new => Ok (hands ++ new)%list
    | Raise e => Raise e
    end.
Proof.
  unfold parse_token, mbind, result_bind.
  destruct (Py.contains "+" token && (String.length token =? 3)%nat).
  - destruct (Py.item token 2); [ | reflexivity].
    destruct (Py.item (substring 0 2 token) 1); [ | reflexivity].
    destruct (Py.index "AKQJT98765432" a0); [ | reflexivity].
    destruct (Py.item (substring 0 2 token) 0); reflexivity.
  - destruct (Py.contains "+" token && (String.length token =? 2)%nat).
    + destruct (Py.item token 0); [ | reflexivity].
      destruct (Py.index "AKQJT98765432" a); reflexivity.
    + reflexivity.
Qed.

Lemma parse_tokens_acc (tokens : list string) (hands : list string) :
  parse_tokens tokens hands
  = match parse_tokens tokens [] with
    | Ok new => Ok (hands ++ new)%list
    | Raise e => Raise e
    end.
Proof.
  revert hands. induction tokens as [ | t tokens IH]; simpl; intros hands.
  - now rewrite app_nil_r.
  - destruct (String.length t =? 0)%nat; [apply IH | ].
    unfold mbind, result_bind.
    rewrite (parse_token_acc t hands).
    destruct (parse_token t []) as [new | e]; [ | reflexivity].
    rewrite (IH (hands ++ new)%list), (IH new).
    destruct (parse_tokens tokens []) as [more | e]; [ | reflexivity].
    simpl. now rewrite app_assoc.
Qed.

Lemma parse_tokens_app (l1 l2 : list string) (hands : list string) :
  parse_tokens (l1 ++ l2) hands
  = match parse_tokens l1 hands with
    | Ok hands' => parse_tokens l2 hands'
    | Raise e => Raise e
    end.
Proof.
  revert hands. induction l1 as [ | t l1 IH]; simpl; intros hands.
  - reflexivity.
  - destruct (String.length t =? 0)%nat; [apply IH | ].
    unfold mbind, result_bind.
    destruct (parse_token t hands); [apply IH | reflexivity].
Qed.

Lemma parse_token_no_plus (token : string) (hands : list string) :
  Py.contains "+" token = false ->
  parse_token token hands = Ok (hands ++ [token])%list.
Proof. intros H. unfold parse_token. now rewrite H. Qed.

Lemma parse_tokens_no_plus (tokens : list string) (hands : list string) :
  Forall (fun t => Py.contains "+" t = false) tokens ->
  parse_tokens tokens hands
  = Ok (hands ++ List.filter (fun t => negb (String.length t =? 0)%nat) tokens)%list.
Proof.
  intros H. revert hands.
  induction H as [ | t tokens Ht _ IH]; simpl; intros hands.
  - now rewrite app_nil_r.
  - destruct (String.length t =? 0)%nat; simpl; [apply IH | ].
    rewrite (parse_token_no_plus _ _ Ht). unfold mbind, result_bind.
    rewrite IH. now rewrite <- app_assoc.
Qed.

(** The tokens of two ranges joined by a comma. *)
Lemma tokens_join (a b : string) :
  Py.split "," (Py.remove " " (a ++ String "," b))
  = (Py.split "," (Py.remove " " a) ++ Py.split "," (Py.remove " " b))%list.
Proof.
  rewrite remove_app.
  change (Py.remove " " (String "," b)) with (String "," (Py.remove " " b)).
  unfold Py.split. apply split_acc_app.
Qed.

End ParserFacts.

(** X1.  A range string without any [+] never raises: the parser returns
    its comma-separated pieces, spaces removed and empty pieces dropped,
    each one verbatim and unvalidated. *)
Theorem parse_hand_range_plain (range_str : string) :
  Py.contains "+" range_str = false ->
  let tokens :=
    List.filter (fun t => negb (String.length t =? 0)%nat)
      (Py.split "," (Py.remove " " range_str)) in
  parse_hand_range_hands range_str = Ok tokens
  /\ parse_hand_range_set range_str = Ok (list_to_set tokens).
Proof.
  intros Hplus tokens.
  assert (parse_hand_range_hands range_str = Ok tokens) as Hhands.
  { unfold parse_hand_range_hands.
    rewrite ParserFacts.parse_tokens_no_plus; [reflexivity | ].
    apply ParserFacts.split_acc_forall; [reflexivity | ].
    now apply ParserFacts.contains_remove. }
  split; [exact Hhands | ].
  unfold parse_hand_range_set. now rewrite Hhands.
Qed.

(** A list of hands with stray spaces, an empty piece and a repeat. *)
Lemma parse_hand_range_plain_witness :
  parse_hand_range_hands "AKs, QQ,,T9o ,QQ" = Ok ["AKs"; "QQ"; "T9o"; "QQ"]
  /\ parse_hand_range_set "AKs, QQ,,T9o ,QQ"
     = Ok (list_to_set ["AKs"; "QQ"; "T9o"; "QQ"]).
Proof. apply (parse_hand_range_plain "AKs, QQ,,T9o ,QQ"). reflexivity. Defined.

(** X2.  Ranges compose: parsing [a] and [b] joined by a comma gives the
    union of what each gives, and raises what the first failing one
    raises. *)
Theorem parse_hand_range_join (a b : string) :
  (forall sa sb, parse_hand_range_set a = Ok sa ->
     parse_hand_range_set b = Ok sb ->
     parse_hand_range_set (a ++ String "," b) = Ok (sa ∪ sb))
  /\ (forall e, parse_hand_range_set a = Raise e ->
        parse_hand_range_set (a ++ String "," b) = Raise e)
  /\ (forall sa e, parse_hand_range_set a = Ok sa ->
        parse_hand_range_set b = Raise e ->
        parse_hand_range_set (a ++ String "," b) = Raise e).
Proof.
  unfold parse_hand_range_set, parse_hand_range_hands, mbind, result_bind.
  rewrite ParserFacts.tokens_join, ParserFacts.parse_tokens_app.
  destruct (parse_tokens (Py.split "," (Py.remove " " a)) []) as [ha | ea].
  - rewrite (ParserFacts.parse_tokens_acc _ ha).
    destruct (parse_tokens (Py.split "," (Py.remove " " b)) []) as [hb | eb].
    + split; [ | split].
      * intros sa sb [= <-] [= <-]. now rewrite list_to_set_app_L.
      * intros e He. discriminate He.
      * intros sa e _ He. discriminate He.
    + split; [ | split].
      * intros sa sb _ Hb. discriminate Hb.
      * intros e He. discriminate He.
      * intros sa e _ [= <-]. reflexivity.
  - split; [ | split].
    + intros sa sb Ha. discriminate Ha.
    + intros e [= <-]. reflexivity.
    + intros sa e Ha. discriminate Ha.
Qed.

(** Two ranges joined, and a failing range joined to a good one. *)
Lemma parse_hand_range_join_witness :
  parse_hand_range_set ("2+" ++ String "," "AKs")
  = Ok (list_to_set ["22"; "33"; "44"; "55"; "66"; "77"; "88"; "99";
                     "TT"; "JJ"; "QQ"; "KK"; "AA"] ∪ {[ "AKs" ]})
  /\ parse_hand_range_set ("x+" ++ String "," "AKs") = Raise ValueError.
Proof.
  destruct (parse_hand_range_join "2+" "AKs") as [Hok _].
  destruct (parse_hand_range_join "x+" "AKs") as [_ [Hraise _]].
  split.
  - apply Hok; vm_compute; reflexivity.
  - apply Hraise. vm_compute. reflexivity.
Defined.

(** X3.  The returned list has no duplicates, and its members are exactly
    the hands that the loop collected. *)
Theorem parse_hand_range_dedup (range_str : string) (l : list string) :
  parse_hand_range range_str = Ok l ->
  NoDup l
  /\ exists hands,
       parse_hand_range_hands range_str = Ok hands
       /\ forall h, h ∈ l <-> h ∈ hands.
Proof.
  unfold parse_hand_range, parse_hand_range_set, mbind, result_bind.
  destruct (parse_hand_range_hands range_str) as [hands | e]; [ | discriminate].
  intros [= <-]. split; [apply NoDup_elements | ].
  exists hands. split; [reflexivity | ].
  intros h. rewrite elem_of_elements, elem_of_list_to_set. reflexivity.
Qed.

(** A range that names [QQ] twice. *)
Lemma parse_hand_range_dedup_witness :
  exists l, parse_hand_range "QQ,AKs,QQ" = Ok l /\ NoDup l /\ length l = 2%nat.
Proof.
  eexists. split; [vm_compute; reflexivity | ].
  split; [ | reflexivity].
  apply (parse_hand_range_dedup "QQ,AKs,QQ"). vm_compute. reflexivity.
Defined.

Module TokenFacts.

(** A token without spaces and commas is the only piece of its range. *)
Lemma tokens_plain (t : string) :
  plain_token t = true -> Py.split "," (Py.remove " " t) = [t].
Proof.
  unfold plain_token. intros H. apply andb_prop in H as [Hs Hc].
  apply negb_true_iff in Hs, Hc.
  rewrite (ParserFacts.remove_absent _ _ Hs). unfold Py.split.
  now rewrite (ParserFacts.split_acc_absent _ _ _ Hc).
Qed.

Lemma parse_single (t : string) :
  plain_token t = true -> String.length t <> 0%nat ->
  parse_hand_range_hands t = parse_token t [].
Proof.
  intros Hplain Hlen. unfold parse_hand_range_hands.
  rewrite (tokens_plain _ Hplain). simpl.
  destruct (String.length t =? 0)%nat eqn:E.
  - apply Nat.eqb_eq in E. contradiction.
  - unfold mbind, result_bind. destruct (parse_token t []); reflexivity.
Qed.

Lemma elem_of_map {A B : Type} (f : A -> B) (l : list A) (y : B) :
  y ∈ map f l <-> exists x, y = f x /\ x ∈ l.
Proof.
  rewrite list_elem_of_In, in_map_iff. split.
  - intros [x [Hx Hin]]. exists x. rewrite list_elem_of_In. auto.
  - intros [x [Hx Hin]]. exists x. rewrite list_elem_of_In in Hin. auto.
Qed.

(** The thirteen cases of a successful [ranks.index]. *)
Ltac rank_inv H :=
  unfold Py.index in H; cbn [Py.index_from] in H;
  repeat match type of H with
         | (if Ascii.eqb ?r ?x then _ else _) = _ =>
             let E := fresh "E" in
             destruct (Ascii.eqb r x) eqn:E;
             [apply Ascii.eqb_eq in E; subst x; injection H as <- | ]
         end;
  [ .. | discriminate H].

(** In the descending order the characters up to position [idx] are the
    ranks at least as strong as the one at [idx]. *)
Lemma slice_down_strength (x : ascii) (idx j : Z) :
  Py.index "AKQJT98765432" x = Ok idx ->
  Py.index ranks_ascending x = Ok j ->
  forall r, r ∈ Py.slice_down "AKQJT98765432" idx
            <-> exists i, Py.index ranks_ascending r = Ok i /\ j <= i.
Proof.
  intros Hd Ha r. rank_inv Hd; vm_compute in Ha; injection Ha as <-;
    (split;
     [ intros Hin;
       match type of Hin with
       | _ ∈ ?l => let l' := eval vm_compute in l in change l with l' in Hin
       end;
       repeat match goal with
              | H : _ ∈ _ :: _ |- _ => apply elem_of_cons in H as [-> | H]
              | H : _ ∈ [] |- _ => apply elem_of_nil in H; contradiction
              end;
       eexists; (split; [vm_compute; reflexivity | lia])
     | intros [i [Hi Hle]]; unfold ranks_ascending in Hi; rank_inv Hi;
       try lia;
       match goal with
       | |- _ ∈ ?l => let l' := eval vm_compute in l in change l with l'
       end;
       repeat constructor ]).
Qed.

End TokenFacts.

(** X4.  A token of two characters with a [+] takes the pair branch: when
    its first character is a rank it expands to the pocket pairs of that
    rank and of every stronger one, and to nothing else; when it is not,
    [ranks.index] raises [ValueError]. *)
Theorem parse_two_char_plus (x y : ascii) :
  let token := String x (String y EmptyString) in
  plain_token token = true ->
  Py.contains "+" token = true ->
  (forall idx j,
     Py.index "AKQJT98765432" x = Ok idx ->
     Py.index ranks_ascending x = Ok j ->
     exists hands,
       parse_hand_range_hands token = Ok hands
       /\ hands = map pocket_pair (Py.slice_down "AKQJT98765432" idx)
       /\ forall h, h ∈ hands
            <-> exists r i, Py.index ranks_ascending r = Ok i /\ j <= i
                            /\ h = pocket_pair r)
  /\ (Py.contains x "AKQJT98765432" = false ->
      parse_hand_range_hands token = Raise ValueError).
Proof.
  intros token Hplain Hplus.
  assert (parse_hand_range_hands token
          = (idx ← Py.index "AKQJT98765432" x;
             Ok (map pocket_pair (Py.slice_down "AKQJT98765432" idx)))) as Heq.
  { rewrite TokenFacts.parse_single by (exact Hplain || discriminate).
    unfold parse_token. rewrite Hplus. reflexivity. }
  rewrite Heq. unfold mbind, result_bind. split.
  - intros idx j Hd Ha. rewrite Hd. eexists. split; [reflexivity | ].
    split; [reflexivity | ].
    intros h. rewrite TokenFacts.elem_of_map. split.
    + intros [r [-> Hr]].
      apply (TokenFacts.slice_down_strength x idx j Hd Ha) in Hr as [i [Hi Hle]].
      exists r, i. auto.
    + intros [r [i [Hi [Hle ->]]]]. exists r. split; [reflexivity | ].
      apply (TokenFacts.slice_down_strength x idx j Hd Ha). eauto.
  - intros Hbad. unfold Py.index.
    now rewrite (StrFacts.not_contains_index_from _ _ 0 Hbad).
Qed.

(** The tokens [T+] and [+T]. *)
Lemma parse_two_char_plus_witness :
  parse_hand_range_hands "T+" = Ok ["TT"; "JJ"; "QQ"; "KK"; "AA"]
  /\ parse_hand_range_hands "+T" = Raise ValueError.
Proof.
  destruct (parse_two_char_plus "T" "+" eq_refl eq_refl) as [Hok _].
  destruct (parse_two_char_plus "+" "T" eq_refl eq_refl) as [_ Hbad].
  split.
  - destruct (Hok 4 8 eq_refl eq_refl) as [hands [Hhands [-> _]]].
    exact Hhands.
  - apply Hbad. reflexivity.
Defined.

(** X5.  A token of three characters with a [+] takes the other branch:
    when its second character is a rank, the first and the third character
    are kept and the second sweeps from that rank up to the ace, whatever
    the three characters mean (so [22+] gives [22+], [23+], ..., [2A+]);
    when the second character is not a rank, [ranks.index] raises
    [ValueError]. *)
Theorem parse_three_char_plus (x y z : ascii) :
  let token := String x (String y (String z EmptyString)) in
  plain_token token = true ->
  Py.contains "+" token = true ->
  (forall idx,
     Py.index "AKQJT98765432" y = Ok idx ->
     parse_hand_range_hands token
     = Ok (map (fun r => String x (String r (String z EmptyString)))
             (Py.slice_down "AKQJT98765432" idx)))
  /\ (Py.contains y "AKQJT98765432" = false ->
      parse_hand_range_hands token = Raise ValueError).
Proof.
  intros token Hplain Hplus.
  assert (parse_hand_range_hands token
          = (idx ← Py.index "AKQJT98765432" y;
             Ok (map (fun r => String x (String r (String z EmptyString)))
                   (Py.slice_down "AKQJT98765432" idx)))) as Heq.
  { rewrite TokenFacts.parse_single by (exact Hplain || discriminate).
    unfold parse_token. rewrite Hplus. simpl.
    unfold mbind, result_bind.
    destruct (Py.index "AKQJT98765432" y); reflexivity. }
  rewrite Heq. unfold mbind, result_bind. split.
  - intros idx Hd. now rewrite Hd.
  - intros Hbad. unfold Py.index.
    now rewrite (StrFacts.not_contains_index_from _ _ 0 Hbad).
Qed.

(** The tokens [KT+], [+A9] and [A+9]. *)
Lemma parse_three_char_plus_witness :
  parse_hand_range_hands "KT+" = Ok ["KT+"; "KJ+"; "KQ+"; "KK+"; "KA+"]
  /\ parse_hand_range_hands "+A9" = Ok ["+A9"]
  /\ parse_hand_range_hands "A+9" = Raise ValueError.
Proof.
  destruct (parse_three_char_plus "K" "T" "+" eq_refl eq_refl) as [Hok _].
  destruct (parse_three_char_plus "+" "A" "9" eq_refl eq_refl) as [Hok' _].
  destruct (parse_three_char_plus "A" "+" "9" eq_refl eq_refl) as [_ Hbad].
  split; [ | split].
  - apply (Hok 4). reflexivity.
  - apply (Hok' 0). reflexivity.
  - apply Hbad. reflexivity.
Defined.

(** X6.  Every other token is returned verbatim: a token without spaces and
    commas that has no [+], or whose length is neither 2 nor 3 (so every
    token of the shape [A9o+]), is the one hand of the result. *)
Theorem parse_token_verbatim (token : string) :
  plain_token token = true ->
  String.length token <> 0%nat ->
  Py.contains "+" token = false
  \/ (String.length token <> 2%nat /\ String.length token <> 3%nat) ->
  parse_hand_range_hands token = Ok [token]
  /\ parse_hand_range token = Ok [token].
Proof.
  intros Hplain Hlen Hcase.
  assert (parse_hand_range_hands token = Ok [token]) as Hhands.
  { rewrite TokenFacts.parse_single by assumption.
    destruct Hcase as [Hplus | [H2 H3]].
    - now apply ParserFacts.parse_token_no_plus.
    - unfold parse_token.
      apply Nat.eqb_neq in H2, H3. rewrite H2, H3, !andb_false_r. reflexivity. }
  split; [exact Hhands | ].
  unfold parse_hand_range, parse_hand_range_set, mbind, result_bind.
  rewrite Hhands. f_equal. simpl.
  rewrite union_empty_r_L. apply elements_singleton.
Qed.

(** The documented forms [ATo+] and [A2s+], and a plain hand. *)
Lemma parse_token_verbatim_witness :
  parse_hand_range "ATo+" = Ok ["ATo+"]
  /\ parse_hand_range "A2s+" = Ok ["A2s+"]
  /\ parse_hand_range "KQo" = Ok ["KQo"].
Proof.
  split; [ | split].
  - apply (parse_token_verbatim "ATo+");
      [reflexivity | discriminate | right; split; discriminate].
  - apply (parse_token_verbatim "A2s+");
      [reflexivity | discriminate | right; split; discriminate].
  - apply (parse_token_verbatim "KQo");
      [reflexivity | discriminate | left; reflexivity].
Defined.

(** ** Hand strength: errors, kickers and order *)

Module StrengthOrder.

Lemma suited_increasing (i j : Z) :
  0 <= i -> i < j -> j <= 12 -> (suited_value i <? suited_value j)%float = true.
Proof.
  intros Hi Hij Hj.
  Strength.rank_cases i; Strength.rank_cases j; try lia; vm_compute; reflexivity.
Qed.

Lemma offsuit_increasing (i j : Z) :
  0 <= i -> i < j -> j <= 12 -> (offsuit_value i <? offsuit_value j)%float = true.
Proof.
  intros Hi Hij Hj.
  Strength.rank_cases i; Strength.rank_cases j; try lia; vm_compute; reflexivity.
Qed.

Lemma offsuit_below_suited (i j : Z) :
  0 <= i -> i <= j -> j <= 12 -> (offsuit_value i <? suited_value j)%float = true.
Proof.
  intros Hi Hij Hj.
  Strength.rank_cases i; Strength.rank_cases j; try lia; vm_compute; reflexivity.
Qed.

Lemma offsuit_below_pair (i j : Z) :
  0 <= i <= 12 -> 0 <= j <= 12 -> (offsuit_value i <? pair_value j)%float = true.
Proof.
  intros Hi Hj.
  Strength.rank_cases i; Strength.rank_cases j; vm_compute; reflexivity.
Qed.

(** The strength of a hand whose first character has rank index [i], by
    the case that the hand falls in. *)
Lemma strength_of (hand : string) (h0 : ascii) (i : Z) :
  Py.item hand 0 = Ok h0 ->
  Py.index ranks_ascending h0 = Ok i ->
  hand_strength_estimate hand
  = Ok (if is_pocket_pair hand then pair_value i
        else if Py.endswith hand "s" then suited_value i
        else if Py.endswith hand "o" then offsuit_value i
        else 0.5%float).
Proof.
  intros Hfirst Hi. destruct hand as [ | c rest]; [discriminate Hfirst | ].
  injection Hfirst as ->. now apply StrengthSpec.hand_strength_estimate_eq.
Qed.

End StrengthOrder.

(** X7.  The heuristic returns exactly on the non-empty hands whose first
    character is one of [23456789TJQKA]: an empty hand raises [IndexError]
    and any other first character raises [ValueError], whatever follows
    it. *)
Theorem hand_strength_estimate_errors (hand : string) :
  (hand = EmptyString -> hand_strength_estimate hand = Raise IndexError)
  /\ (forall h0, Py.item hand 0 = Ok h0 ->
        Py.contains h0 ranks_ascending = false ->
        hand_strength_estimate hand = Raise ValueError)
  /\ (forall h0, Py.item hand 0 = Ok h0 ->
        Py.contains h0 ranks_ascending = true ->
        exists v, hand_strength_estimate hand = Ok v).
Proof.
  split; [ | split].
  - intros ->. reflexivity.
  - intros h0 Hfirst Hbad.
    destruct hand as [ | c rest]; [discriminate Hfirst | ].
    injection Hfirst as ->.
    now apply StrengthSpec.hand_strength_estimate_bad_rank.
  - intros h0 Hfirst Hrank.
    destruct (StrengthSpec.rank_index h0 Hrank) as [i [Hi _]].
    eexists. apply (StrengthOrder.strength_of hand h0 i Hfirst Hi).
Qed.

(** X8.  Only the first character and the suit tag count: two hands that
    start with the same character, are both no pocket pair and end alike
    ([s], [o] or neither) get the same result, whatever their second
    rank. *)
Theorem hand_strength_estimate_kicker (h1 h2 : string) (h0 : ascii) :
  Py.item h1 0 = Ok h0 ->
  Py.item h2 0 = Ok h0 ->
  is_pocket_pair h1 = false ->
  is_pocket_pair h2 = false ->
  Py.endswith h1 "s" = Py.endswith h2 "s" ->
  Py.endswith h1 "o" = Py.endswith h2 "o" ->
  hand_strength_estimate h1 = hand_strength_estimate h2.
Proof.
  intros H1 H2 Hp1 Hp2 Hs Ho.
  destruct (Py.contains h0 ranks_ascending) eqn:Hrank.
  - destruct (StrengthSpec.rank_index h0 Hrank) as [i [Hi _]].
    rewrite (StrengthOrder.strength_of h1 h0 i H1 Hi).
    rewrite (StrengthOrder.strength_of h2 h0 i H2 Hi).
    now rewrite Hp1, Hp2, Hs, Ho.
  - destruct (hand_strength_estimate_errors h1) as [_ [Hbad1 _]].
    destruct (hand_strength_estimate_errors h2) as [_ [Hbad2 _]].
    now rewrite (Hbad1 h0 H1 Hrank), (Hbad2 h0 H2 Hrank).
Qed.

(** Ace-king suited and ace-deuce suited. *)
Lemma hand_strength_estimate_kicker_witness :
  hand_strength_estimate "AKs" = hand_strength_estimate "A2s".
Proof.
  apply (hand_strength_estimate_kicker "AKs" "A2s" "A"); reflexivity.
Defined.

(** X9.  Order of the strengths.  Among suited non-pairs, and among offsuit
    non-pairs, a higher first rank is strictly stronger; an offsuit hand is
    strictly weaker than a suited hand whose first rank is not lower, and
    strictly weaker than every pocket pair. *)
Theorem hand_strength_estimate_order (h1 h2 : string) (a b : ascii) (i j : Z) :
  Py.item h1 0 = Ok a -> Py.index ranks_ascending a = Ok i ->
  Py.item h2 0 = Ok b -> Py.index ranks_ascending b = Ok j ->
  is_pocket_pair h1 = false ->
  exists v1 v2,
    hand_strength_estimate h1 = Ok v1
    /\ hand_strength_estimate h2 = Ok v2
    /\ (Py.endswith h1 "s" = true -> is_pocket_pair h2 = false ->
        Py.endswith h2 "s" = true -> i < j -> (v1 <? v2)%float = true)
    /\ (Py.endswith h1 "o" = true -> is_pocket_pair h2 = false ->
        Py.endswith h2 "o" = true -> i < j -> (v1 <? v2)%float = true)
    /\ (Py.endswith h1 "o" = true -> is_pocket_pair h2 = false ->
        Py.endswith h2 "s" = true -> i <= j -> (v1 <? v2)%float = true)
    /\ (Py.endswith h1 "o" = true -> is_pocket_pair h2 = true ->
        (v1 <? v2)%float = true).
Proof.
  intros H1 Hi H2 Hj Hp1.
  pose proof (StrFacts.index_range _ _ _ Hi) as Ri.
  pose proof (StrFacts.index_range _ _ _ Hj) as Rj.
  simpl in Ri, Rj.
  eexists. eexists.
  split; [apply (StrengthOrder.strength_of h1 a i H1 Hi) | ].
  split; [apply (StrengthOrder.strength_of h2 b j H2 Hj) | ].
  rewrite Hp1.
  assert (forall h, Py.endswith h "o" = true -> Py.endswith h "s" = false) as Hos.
  { intros h Ho. destruct (Py.endswith h "s") eqn:Hs; [ | reflexivity].
    pose proof (StrFacts.endswith_unique h _ _ Hs Ho) as Habs. discriminate Habs. }
  split; [ | split; [ | split]].
  - intros Hs1 Hp2 Hs2 Hlt. rewrite Hs1, Hp2, Hs2.
    apply StrengthOrder.suited_increasing; lia.
  - intros Ho1 Hp2 Ho2 Hlt.
    rewrite (Hos h1 Ho1), Ho1, Hp2, (Hos h2 Ho2), Ho2.
    apply StrengthOrder.offsuit_increasing; lia.
  - intros Ho1 Hp2 Hs2 Hle. rewrite (Hos h1 Ho1), Ho1, Hp2, Hs2.
    apply StrengthOrder.offsuit_below_suited; lia.
  - intros Ho1 Hp2. rewrite (Hos h1 Ho1), Ho1, Hp2.
    apply StrengthOrder.offsuit_below_pair; lia.
Qed.

(** King-queen offsuit against ace-deuce offsuit, king-deuce suited and the
    pair of deuces. *)
Lemma hand_strength_estimate_order_witness :
  (exists v1 v2, hand_strength_estimate "KQo" = Ok v1
                 /\ hand_strength_estimate "A2o" = Ok v2
                 /\ (v1 <? v2)%float = true)
  /\ (exists v1 v2, hand_strength_estimate "KQo" = Ok v1
                    /\ hand_strength_estimate "22" = Ok v2
                    /\ (v1 <? v2)%float = true).
Proof.
  split.
  - destruct (hand_strength_estimate_order "KQo" "A2o" "K" "A" 11 12
                eq_refl eq_refl eq_refl eq_refl eq_refl)
      as [v1 [v2 [Hv1 [Hv2 [_ [Hoo _]]]]]].
    exists v1, v2. split; [exact Hv1 | ]. split; [exact Hv2 | ].
    apply Hoo; [reflexivity | reflexivity | reflexivity | lia].
  - destruct (hand_strength_estimate_order "KQo" "22" "K" "2" 11 0
                eq_refl eq_refl eq_refl eq_refl eq_refl)
      as [v1 [v2 [Hv1 [Hv2 [_ [_ [_ Hop]]]]]]].
    exists v1, v2. split; [exact Hv1 | ]. split; [exact Hv2 | ].
    apply Hop; reflexivity.
Defined.


(** ** Random hands *)

Module RandomHand.

Ltac position_cases i :=
  let H := fresh "Hpos" in
  assert (i = 0 \/ i = 1 \/ i = 2 \/ i = 3 \/ i = 4 \/ i = 5 \/ i = 6
          \/ i = 7 \/ i = 8 \/ i = 9 \/ i = 10 \/ i = 11 \/ i = 12)%nat
    as H by lia;
  repeat (destruct H as [H | H]; [subst i | ]); [ .. | subst i].

End RandomHand.

(** X10.  [random_hand] never gives a pocket pair: for every two distinct
    positions that [random.sample] can draw, the result is the two
    different rank characters at those positions in the drawn order,
    followed by the drawn tag; the test [a == b] never holds. *)
Theorem random_hand_no_pair (i j : nat) (suited : bool) :
  (i < 13)%nat -> (j < 13)%nat -> i <> j ->
  exists a b,
    Py.item "AKQJT98765432" i = Ok a
    /\ Py.item "AKQJT98765432" j = Ok b
    /\ a <> b
    /\ random_hand i j suited
       = Ok (String a (String b (String (if suited then "s" else "o")%char
                                   EmptyString)))
    /\ forall h, random_hand i j suited = Ok h -> is_pocket_pair h = false.
Proof.
  intros Hi Hj Hne.
  RandomHand.position_cases i; RandomHand.position_cases j;
    try (exfalso; apply Hne; reflexivity);
    (eexists; eexists;
     split; [reflexivity | ];
     split; [reflexivity | ];
     split; [discriminate | ];
     split; [destruct suited; reflexivity | ];
     intros h; destruct suited; intros [= <-]; reflexivity).
Qed.

(** The draws (12, 0, suited) give the hand [2As], lower rank first. *)
Lemma random_hand_no_pair_witness :
  random_hand 12 0 true = Ok "2As".
Proof.
  destruct (random_hand_no_pair 12 0 true ltac:(lia) ltac:(lia) ltac:(lia))
    as [a [b [Ha [Hb [_ [Hhand _]]]]]].
  injection Ha as <-. injection Hb as <-. exact Hhand.
Defined.

(** X11.  The heuristic never raises on a hand of [random_hand], and gives
    the suited or the offsuit value of its first rank: for the draws
    [(i, j, suited)] the rank index is [12 - i]. *)
Theorem random_hand_strength (i j : nat) (suited : bool) :
  (i < 13)%nat -> (j < 13)%nat -> i <> j ->
  exists h,
    random_hand i j suited = Ok h
    /\ hand_strength_estimate h
       = Ok (if suited then suited_value (12 - Z.of_nat i)
             else offsuit_value (12 - Z.of_nat i)).
Proof.
  intros Hi Hj Hne.
  RandomHand.position_cases i; RandomHand.position_cases j;
    try (exfalso; apply Hne; reflexivity);
    destruct suited;
    (eexists; split; [reflexivity | vm_compute; reflexivity]).
Qed.

(** The draws (1, 7, offsuit) give [K7o], of strength 0.72. *)
Lemma random_hand_strength_witness :
  exists h, random_hand 1 7 false = Ok h
            /\ hand_strength_estimate h = Ok (offsuit_value 11).
Proof.
  apply (random_hand_strength 1 7 false); lia.
Defined.

(** ** Chart loading *)

Module LoadFacts.

Lemma upper_char_idempotent (c : ascii) :
  PyStr.upper_char (PyStr.upper_char c) = PyStr.upper_char c.
Proof. destruct c as [[] [] [] [] [] [] [] []]; reflexivity. Qed.

Lemma upper_idempotent (s : string) : PyStr.upper (PyStr.upper s) = PyStr.upper s.
Proof.
  induction s as [ | c s IH]; simpl; [reflexivity | ].
  now rewrite upper_char_idempotent, IH.
Qed.

Lemma eval_spot_chart_get (hand : string) (spot : Spot) (chart : Chart) (bucket : Z) :
  Py.round (stacks_bb spot) = Ok bucket ->
  eval_spot_chart hand spot chart
  = Ok (default "N/A"
          (chart_get chart (bucket, position spot, action_before spot) hand)).
Proof.
  intros Hround. unfold eval_spot_chart, chart_get. rewrite Hround.
  unfold mbind, result_bind.
  destruct (chart !! (bucket, position spot, action_before spot)); reflexivity.
Qed.

(** Filing a row changes the one entry it is filed under. *)
Lemma add_row_get (chart : Chart) (row : ChartRow)
    (key : Z * string * string) (hand : string) :
  chart_get (add_row chart row) key hand
  = if row_matches key hand row then Some (PyStr.upper (row_decision row))
    else chart_get chart key hand.
Proof.
  unfold chart_get, add_row, row_matches.
  set (k := (row_stack_bb row, row_position row, row_action_before row)).
  destruct (bool_decide (k = key)) eqn:Hk.
  - apply bool_decide_eq_true in Hk. subst key. rewrite lookup_insert_eq.
    destruct (String.eqb (row_hand row) hand) eqn:Hh; simpl.
    + apply String.eqb_eq in Hh. subst hand. apply lookup_insert_eq.
    + apply String.eqb_neq in Hh. rewrite lookup_insert_ne by exact Hh.
      destruct (chart !! k); [reflexivity | apply lookup_empty].
  - apply bool_decide_eq_false in Hk. simpl.
    now rewrite lookup_insert_ne by exact Hk.
Qed.

(** After the loop an entry is what the last row filed under it says. *)
Lemma fold_get (rows : list ChartRow) (chart : Chart)
    (key : Z * string * string) (hand : string) :
  chart_get (fold_left add_row rows chart) key hand
  = match last (List.filter (row_matches key hand) rows) with
    | Some row => Some (PyStr.upper (row_decision row))
    | None => chart_get chart key hand
    end.
Proof.
  induction rows as [ | row rows IH] using rev_ind; [reflexivity | ].
  rewrite fold_left_app. simpl fold_left. rewrite add_row_get.
  rewrite List.filter_app. simpl List.filter.
  destruct (row_matches key hand row).
  - now rewrite last_snoc.
  - now rewrite app_nil_r.
Qed.

Lemma loaded (path : string) (rows : list ChartRow) (chart : Chart) :
  String.length path <> 0%nat ->
  load_chart (Some path) rows = Ok chart ->
  chart = fold_left add_row rows ∅.
Proof.
  intros Hlen. unfold load_chart.
  destruct (String.length path =? 0)%nat eqn:E;
    [apply Nat.eqb_eq in E; contradiction | ].
  destruct (PyStr.endswith path ".csv"); [now intros [= <-] | ].
  destruct (PyStr.endswith path ".json"); [now intros [= <-] | discriminate].
Qed.

Lemma filter_elem (f : ChartRow -> bool) (rows : list ChartRow) (row : ChartRow) :
  last (List.filter f rows) = Some row -> row ∈ rows /\ f row = true.
Proof.
  intros Hlast. apply last_Some_elem_of in Hlast.
  apply list_elem_of_In, filter_In in Hlast as [Hin Hf].
  split; [now apply list_elem_of_In | exact Hf].
Qed.

(** With one row at most per key and hand, the rows filed under a key and
    hand are that row alone. *)
Lemma filter_unique (rows : list ChartRow) (row : ChartRow)
    (key : Z * string * string) (hand : string) :
  NoDup (map row_key rows) -> row ∈ rows -> row_matches key hand row = true ->
  List.filter (row_matches key hand) rows = [row].
Proof.
  assert (forall r, row_matches key hand r = true -> row_key r = (key, hand)) as Hkey.
  { intros r Hr. unfold row_matches in Hr. apply andb_prop in Hr as [Hk Hh].
    apply bool_decide_eq_true in Hk. apply String.eqb_eq in Hh.
    unfold row_key. now rewrite <- Hk, Hh. }
  induction rows as [ | r rows IH]; intros Hnd Hin Hm.
  - apply elem_of_nil in Hin. contradiction.
  - simpl in Hnd. apply NoDup_cons in Hnd as [Hfresh Hnd].
    assert (forall r', r' ∈ rows -> row_matches key hand r' = true ->
                       row_key r' ∈ map row_key rows) as Hmem.
    { intros r' Hr' _. apply list_elem_of_In, in_map, list_elem_of_In, Hr'. }
    apply elem_of_cons in Hin as [<- | Hin]; simpl.
    + rewrite Hm. f_equal.
      destruct (List.filter (row_matches key hand) rows) as [ | r' l] eqn:Hf;
        [reflexivity | exfalso].
      assert (In r' (List.filter (row_matches key hand) rows)) as Hr'
          by (rewrite Hf; now left).
      apply filter_In in Hr' as [Hr'in Hr'm].
      apply Hfresh. rewrite (Hkey _ Hm), <- (Hkey _ Hr'm).
      apply Hmem; [now apply list_elem_of_In | exact Hr'm].
    + destruct (row_matches key hand r) eqn:Hr; [exfalso | now apply IH].
      apply Hfresh. rewrite (Hkey _ Hr), <- (Hkey _ Hm). now apply Hmem.
Qed.

Lemma filter_none (f : ChartRow -> bool) (rows : list ChartRow) :
  (forall row, row ∈ rows -> f row = false) -> List.filter f rows = [].
Proof.
  induction rows as [ | r rows IH]; intros H; [reflexivity | ]. simpl.
  rewrite (H r) by (apply elem_of_cons; now left).
  apply IH. intros row Hrow. apply H, elem_of_cons. now right.
Qed.

End LoadFacts.

(** X12.  Loading then looking up: on a chart loaded from a file, the
    lookup returns the decision, upper-cased, of the last row filed under
    the spot's key and the hand, and ["N/A"] when no row is. *)
Theorem load_chart_lookup (path : string) (rows : list ChartRow) (chart : Chart)
    (hand : string) (spot : Spot) (bucket : Z) :
  String.length path <> 0%nat ->
  load_chart (Some path) rows = Ok chart ->
  Py.round (stacks_bb spot) = Ok bucket ->
  eval_spot_chart hand spot chart
  = Ok (last_decision rows (bucket, position spot, action_before spot) hand).
Proof.
  intros Hlen Hload Hround.
  rewrite (LoadFacts.loaded path rows chart Hlen Hload).
  rewrite (LoadFacts.eval_spot_chart_get _ _ _ _ Hround).
  rewrite LoadFacts.fold_get. unfold last_decision.
  destruct (last (List.filter _ rows)); reflexivity.
Qed.

(** A chart file whose second row overrides the first, in lower case. *)
Lemma load_chart_lookup_witness :
  exists chart,
    load_chart (Some "my.csv")
      [ {| row_stack_bb := 10; row_position := "SB"; row_action_before := "none";
           row_hand := "A2s"; row_decision := "fold" |};
        {| row_stack_bb := 10; row_position := "SB"; row_action_before := "none";
           row_hand := "A2s"; row_decision := "push" |} ] = Ok chart
    /\ eval_spot_chart "A2s" scenario_spot chart = Ok "PUSH"
    /\ eval_spot_chart "KTo" scenario_spot chart = Ok "N/A".
Proof.
  eexists. split; [reflexivity | ]. split.
  - rewrite (load_chart_lookup "my.csv" _ _ "A2s" scenario_spot 10
               ltac:(discriminate) eq_refl eq_refl).
    reflexivity.
  - rewrite (load_chart_lookup "my.csv" _ _ "KTo" scenario_spot 10
               ltac:(discriminate) eq_refl eq_refl).
    reflexivity.
Defined.

(** X13.  A loaded chart holds nothing but what its rows filed: every
    decision stored in it is the upper-cased decision of a row filed under
    that key and hand, and is in upper case. *)
Theorem load_chart_entries (path : string) (rows : list ChartRow) (chart : Chart)
    (key : Z * string * string) (hand d : string) :
  String.length path <> 0%nat ->
  load_chart (Some path) rows = Ok chart ->
  chart_get chart key hand = Some d ->
  PyStr.upper d = d
  /\ exists row, row ∈ rows /\ row_matches key hand row = true
                 /\ d = PyStr.upper (row_decision row).
Proof.
  intros Hlen Hload.
  rewrite (LoadFacts.loaded path rows chart Hlen Hload), LoadFacts.fold_get.
  destruct (last (List.filter (row_matches key hand) rows)) as [row | ] eqn:Hlast.
  - intros [= <-]. split; [apply LoadFacts.upper_idempotent | ].
    apply LoadFacts.filter_elem in Hlast as [Hin Hm]. eauto.
  - unfold chart_get. rewrite lookup_empty. discriminate.
Qed.

(** A chart of one row written in mixed case. *)
Lemma load_chart_entries_witness :
  PyStr.upper "PUSH" = "PUSH"
  /\ exists row,
       row ∈ [ {| row_stack_bb := 8; row_position := "CO";
                  row_action_before := "none"; row_hand := "QTs";
                  row_decision := "Push" |} ]
       /\ row_matches (8, "CO", "none") "QTs" row = true
       /\ "PUSH" = PyStr.upper (row_decision row).
Proof.
  apply (load_chart_entries "c.json"
           [ {| row_stack_bb := 8; row_position := "CO";
                row_action_before := "none"; row_hand := "QTs";
                row_decision := "Push" |} ]
           (fold_left add_row
              [ {| row_stack_bb := 8; row_position := "CO";
                   row_action_before := "none"; row_hand := "QTs";
                   row_decision := "Push" |} ] ∅)
           (8, "CO", "none") "QTs" "PUSH");
    [discriminate | reflexivity | vm_compute; reflexivity].
Defined.

(** X14.  The order of the rows only matters among rows filed under the
    same key and hand: when the rows of a file have pairwise different
    (key, hand), loading them in any other order gives the same lookups. *)
Theorem load_chart_order (path : string) (rows rows' : list ChartRow)
    (chart chart' : Chart) (hand : string) (spot : Spot) :
  String.length path <> 0%nat ->
  NoDup (map row_key rows) ->
  Permutation rows rows' ->
  load_chart (Some path) rows = Ok chart ->
  load_chart (Some path) rows' = Ok chart' ->
  eval_spot_chart hand spot chart = eval_spot_chart hand spot chart'.
Proof.
  intros Hlen Hnd Hperm Hload Hload'.
  destruct (Py.round (stacks_bb spot)) as [bucket | e] eqn:Hround.
  - rewrite (load_chart_lookup path rows chart hand spot bucket Hlen Hload Hround).
    rewrite (load_chart_lookup path rows' chart' hand spot bucket Hlen Hload' Hround).
    f_equal. unfold last_decision.
    set (key := (bucket, position spot, action_before spot)).
    assert (NoDup (map row_key rows')) as Hnd'.
    { assert (map row_key rows ≡ₚ map row_key rows') as Hmap
          by now apply Permutation_map.
      now rewrite <- Hmap. }
    destruct (last (List.filter (row_matches key hand) rows)) as [row | ] eqn:Hlast.
    + apply LoadFacts.filter_elem in Hlast as [Hin Hm].
      rewrite (LoadFacts.filter_unique rows' row key hand Hnd'); [reflexivity | | exact Hm].
      now rewrite <- Hperm.
    + apply last_None in Hlast.
      rewrite LoadFacts.filter_none; [reflexivity | ].
      intros row Hrow. destruct (row_matches key hand row) eqn:Hm; [exfalso | reflexivity].
      rewrite <- Hperm in Hrow.
      assert (In row (List.filter (row_matches key hand) rows)) as Habs
          by (apply filter_In; split; [now apply list_elem_of_In | exact Hm]).
      rewrite Hlast in Habs. contradiction.
  - unfold eval_spot_chart. rewrite Hround. reflexivity.
Qed.

(** Two rows in both orders. *)
Lemma load_chart_order_witness :
  eval_spot_chart "KTo" scenario_spot
    (fold_left add_row
       [ {| row_stack_bb := 10; row_position := "SB"; row_action_before := "none";
            row_hand := "A2s"; row_decision := "PUSH" |};
         {| row_stack_bb := 10; row_position := "SB"; row_action_before := "none";
            row_hand := "KTo"; row_decision := "FOLD" |} ] ∅)
  = eval_spot_chart "KTo" scenario_spot
    (fold_left add_row
       [ {| row_stack_bb := 10; row_position := "SB"; row_action_before := "none";
            row_hand := "KTo"; row_decision := "FOLD" |};
         {| row_stack_bb := 10; row_position := "SB"; row_action_before := "none";
            row_hand := "A2s"; row_decision := "PUSH" |} ] ∅).
Proof.
  apply (load_chart_order "c.csv"
           [ {| row_stack_bb := 10; row_position := "SB"; row_action_before := "none";
            row_hand := "A2s"; row_decision := "PUSH" |};
             {| row_stack_bb := 10; row_position := "SB"; row_action_before := "none";
            row_hand := "KTo"; row_decision := "FOLD" |} ]
           [ {| row_stack_bb := 10; row_position := "SB"; row_action_before := "none";
            row_hand := "KTo"; row_decision := "FOLD" |};
             {| row_stack_bb := 10; row_position := "SB"; row_action_before := "none";
            row_hand := "A2s"; row_decision := "PUSH" |} ]
           _ _ "KTo" scenario_spot);
    [discriminate | | apply perm_swap | reflexivity | reflexivity].
  apply NoDup_cons. split.
  - intros Hin. apply list_elem_of_singleton in Hin. discriminate Hin.
  - apply NoDup_singleton.
Defined.

(** ** EV estimate: the cap of the call probability *)

Module PCallCap.
Import Binary64.

(** Rounding a positive mantissa never gives a NaN. *)
Lemma binary_round_aux_not_nan (s : bool) (m : positive) (e : Z) :
  binary_round_aux prec emax s (Z.pos m) e loc_Exact <> S754_nan.
Proof.
  unfold binary_round_aux.
  pose proof (shr_fexp_m (Z.pos m) e loc_Exact ltac:(lia)) as [Hm1 _].
  destruct (shr_fexp prec emax (Z.pos m) e loc_Exact) as [mrs1 e1].
  simpl fst in Hm1.
  pose proof (round_nearest_even_bounds (shr_m mrs1) (loc_of_shr_record mrs1)) as Hr.
  set (m1 := round_nearest_even (shr_m mrs1) (loc_of_shr_record mrs1)) in *.
  assert (0 <= m1) as Hpos.
  { rewrite Hm1 in Hr.
    assert (0 <= Z.pos m / 2 ^ Z.max (fexp64 (Zdigits2 (Z.pos m) + e) - e) 0)
      by (apply Z.div_pos; [lia | apply pow2_pos; lia]).
    lia. }
  pose proof (shr_fexp_m m1 e1 loc_Exact Hpos) as [Hm2 _].
  destruct (shr_fexp prec emax m1 e1 loc_Exact) as [mrs2 e2].
  simpl fst in Hm2.
  assert (0 <= shr_m mrs2) as Hpos2
      by (rewrite Hm2; apply Z.div_pos; [exact Hpos | apply pow2_pos; lia]).
  destruct (shr_m mrs2) as [ | p | p]; try discriminate; [ | lia].
  destruct (e2 <=? emax - prec); discriminate.
Qed.

Lemma binary_round_not_nan (s : bool) (q : positive) (e : Z) :
  binary_round prec emax s q e <> S754_nan.
Proof.
  unfold binary_round.
  destruct (shl_align q e (fexp64 (Z.pos (digits2_pos q) + e))) as [mz ez].
  apply binary_round_aux_not_nan.
Qed.

Lemma binary_normalize_not_nan (m e : Z) (szero : bool) :
  binary_normalize prec emax m e szero <> S754_nan.
Proof.
  destruct m; simpl; [discriminate | apply binary_round_not_nan ..].
Qed.

(** The float of an int is a zero or a normal number. *)
Lemma to_float_finite (z : Z) (k : float) :
  Py.to_float z = Ok k -> is_finite k = true.
Proof.
  unfold Py.to_float, Py.float_of_Z, is_finite.
  destruct z as [ | p | p].
  - intros [= <-]. reflexivity.
  - change (binary_normalize prec emax (Z.pos p) 0 false)
      with (binary_round prec emax false p 0).
    destruct (binary_round_normal false p 0
                ltac:(pose proof (Pos2Z.is_pos (digits2_pos p)); lia))
      as [Hinf | [m2 [e2 [Hfin [Hm2 [He2 [Hlo _]]]]]]].
    + rewrite Hinf. discriminate.
    + rewrite Hfin. intros [= <-].
      change (Z.ldexp (of_uint63 (Uint63Axioms.of_pos m2)) e2)
        with (SF2Prim (S754_finite false m2 e2)).
      rewrite Prim2SF_SF2Prim; [reflexivity | ].
      simpl. apply bounded_normal; [exact Hm2 | ].
      pose proof (Pos2Z.is_pos (digits2_pos p)). lia.
  - change (binary_normalize prec emax (Z.neg p) 0 false)
      with (binary_round prec emax true p 0).
    destruct (binary_round_normal true p 0
                ltac:(pose proof (Pos2Z.is_pos (digits2_pos p)); lia))
      as [Hinf | [m2 [e2 [Hfin [Hm2 [He2 [Hlo _]]]]]]].
    + rewrite Hinf. discriminate.
    + rewrite Hfin. intros Hk.
      assert (k = SF2Prim (S754_finite true m2 e2)) as -> by congruence.
      rewrite Prim2SF_SF2Prim; [reflexivity | ].
      simpl. apply bounded_normal; [exact Hm2 | ].
      pose proof (Pos2Z.is_pos (digits2_pos p)). lia.
Qed.

(** A quarter plus a twentieth of a finite float is not a NaN. *)
Lemma quarter_plus_twentieth_not_nan (k : float) :
  is_finite k = true -> Prim2SF (0.25 + 0.05 * k) <> S754_nan.
Proof.
  unfold is_finite. intros Hk.
  rewrite add_spec, mul_spec.
  replace (Prim2SF 0.25) with (S754_finite false 4503599627370496 (-54))
    by (vm_compute; reflexivity).
  replace (Prim2SF 0.05) with (S754_finite false 7205759403792794 (-57))
    by (vm_compute; reflexivity).
  destruct (Prim2SF k) as [s | s | | s m e]; try discriminate.
  unfold SF64mul, SFmul.
  pose proof (binary_round_aux_not_nan (xorb false s)
                (7205759403792794 * m) (-57 + e)) as Hmul.
  destruct (binary_round_aux prec emax (xorb false s)
              (Z.pos (7205759403792794 * m)) (-57 + e) loc_Exact)
    as [s' | s' | | s' m' e']; simpl; try discriminate.
  - contradiction.
  - unfold SF64add, SFadd. apply binary_normalize_not_nan.
Qed.

(** Two floats that are no NaN compare. *)
Lemma not_above_is_below (x : spec_float) (c : float) :
  x <> S754_nan -> Prim2SF c <> S754_nan ->
  SFltb (Prim2SF c) x = false -> SFleb x (Prim2SF c) = true.
Proof.
  intros Hx Hc. unfold SFltb, SFleb.
  rewrite (FloatFacts.SFcompare_antisym x (Prim2SF c)).
  destruct (SFcompare x (Prim2SF c)) as [[ | | ] | ] eqn:Hcmp;
    simpl; try reflexivity; try discriminate.
  exfalso.
  destruct x as [sx | sx | | sx mx ex]; [ | | contradiction | ];
    destruct (Prim2SF c) as [sc | sc | | sc mc ec];
    try contradiction; simpl in Hcmp; discriminate Hcmp.
Qed.

End PCallCap.

(** X15.  The call probability is capped: for every int [players_left]
    whose difference from 9 converts to a float, [p_call] is a number (no
    NaN) that is at most 0.5. *)
Theorem p_call_capped (players_left : Z) (k : float) :
  Py.to_float (9 - players_left) = Ok k ->
  (Spec.p_call k <=? 0.5)%float = true.
Proof.
  intros Hk. apply PCallCap.to_float_finite in Hk.
  pose proof (PCallCap.quarter_plus_twentieth_not_nan k Hk) as Hnan.
  unfold Spec.p_call, Py.min.
  destruct (0.5 <? 0.25 + 0.05 * k)%float eqn:Hlt; [reflexivity | ].
  rewrite ltb_spec in Hlt. rewrite leb_spec.
  apply PCallCap.not_above_is_below; [exact Hnan | | exact Hlt].
  vm_compute. discriminate.
Qed.

(** Two players (the cap applies) and twenty players. *)
Lemma p_call_capped_witness :
  (Spec.p_call 7 <=? 0.5)%float = true
  /\ (Spec.p_call (-11) <=? 0.5)%float = true.
Proof.
  split.
  - apply (p_call_capped 2 7). reflexivity.
  - apply (p_call_capped 20 (-11)). vm_compute. reflexivity.
Defined.

(** ** Where the estimate and the advisor return *)

Module Overflow.
Import Binary64.

(** Below the largest exponent the rounding of a normal mantissa is a
    finite number. *)
Lemma binary_round_aux_in_range (s : bool) (m : positive) (e : Z) :
  let d := Z.pos (digits2_pos m) in
  53 <= d -> -1074 <= d + e - 53 -> d + e - 52 <= 971 ->
  exists m2 e2,
    binary_round_aux prec emax s (Z.pos m) e loc_Exact = S754_finite s m2 e2.
Proof.
  intros d Hd He Htop.
  pose proof (digits_bounds m) as Hm. fold d in Hm.
  unfold binary_round_aux.
  pose proof (shr_fexp_m (Z.pos m) e loc_Exact ltac:(lia)) as [Hm1 He1].
  destruct (shr_fexp prec emax (Z.pos m) e loc_Exact) as [mrs1 e1].
  simpl fst in Hm1; simpl snd in He1.
  change (Zdigits2 (Z.pos m)) with d in Hm1, He1.
  rewrite fexp64_eq in Hm1, He1.
  replace (Z.max (Z.max (d + e - 53) (-1074) - e) 0) with (d - 53) in Hm1, He1 by lia.
  assert (2 ^ 52 <= Z.pos m / 2 ^ (d - 53) < 2 ^ 53) as Hq.
  { pose proof (pow2_pos (d - 53) ltac:(lia)) as Hp.
    split.
    - apply Z.div_le_lower_bound; [exact Hp | ].
      rewrite <- pow2_split by lia. replace (d - 53 + 52) with (d - 1) by lia.
      apply Hm.
    - apply Z.div_lt_upper_bound; [exact Hp | ].
      rewrite <- pow2_split by lia. replace (d - 53 + 53) with d by lia.
      apply Hm. }
  pose proof (round_nearest_even_bounds (shr_m mrs1) (loc_of_shr_record mrs1)) as Hr.
  set (m1 := round_nearest_even (shr_m mrs1) (loc_of_shr_record mrs1)) in *.
  rewrite Hm1 in Hr.
  pose proof (shr_fexp_m m1 e1 loc_Exact ltac:(lia)) as [Hm2 He2].
  destruct (shr_fexp prec emax m1 e1 loc_Exact) as [mrs2 e2].
  simpl fst in Hm2; simpl snd in He2.
  rewrite fexp64_eq in Hm2, He2.
  assert (m1 < 2 ^ 53 \/ m1 = 2 ^ 53) as [Hlt | Heq] by lia.
  - rewrite (Zdigits2_53 m1) in Hm2, He2 by lia.
    replace (Z.max (Z.max (53 + e1 - 53) (-1074) - e1) 0) with 0 in Hm2, He2 by lia.
    rewrite Z.div_1_r in Hm2. rewrite Hm2.
    destruct m1 as [ | p1 | p1]; try lia.
    destruct (e2 <=? emax - prec) eqn:Hb; [eauto | ].
    apply Z.leb_gt in Hb. change (emax - prec) with 971 in Hb. lia.
  - rewrite Heq in Hm2, He2. rewrite Zdigits2_54 in Hm2, He2.
    replace (Z.max (Z.max (54 + e1 - 53) (-1074) - e1) 0) with 1 in Hm2, He2 by lia.
    change (2 ^ 53 / 2 ^ 1) with (Z.pos 4503599627370496) in Hm2. rewrite Hm2.
    destruct (e2 <=? emax - prec) eqn:Hb; [eauto | ].
    apply Z.leb_gt in Hb. change (emax - prec) with 971 in Hb. lia.
Qed.

Lemma binary_round_in_range (s : bool) (q : positive) (e : Z) :
  let d := Z.pos (digits2_pos q) in
  -1074 <= d + e - 53 -> d + e - 52 <= 971 ->
  exists m2 e2, binary_round prec emax s q e = S754_finite s m2 e2.
Proof.
  intros d He Htop. pose proof (digits_bounds q) as Hq. fold d in Hq.
  assert (0 < d) as Hd by (unfold d; lia).
  unfold binary_round. rewrite fexp64_eq. fold d.
  replace (Z.max (d + e - 53) (-1074)) with (d + e - 53) by lia.
  unfold shl_align.
  destruct (d + e - 53 - e) as [ | n | n] eqn:Hn.
  - apply binary_round_aux_in_range; fold d; lia.
  - apply binary_round_aux_in_range; fold d; lia.
  - assert (Z.pos n = 53 - d) as Hn' by lia.
    pose proof (iter_xO q n) as Hz. rewrite Hn' in Hz.
    set (mz := Pos.iter xO q n) in *.
    assert (Z.pos (digits2_pos mz) = 53) as Hdz.
    { apply digits_unique. rewrite Hz. change (53 - 1) with 52.
      assert (2 ^ 52 = 2 ^ (d - 1) * 2 ^ (53 - d)) as ->
          by (rewrite <- pow2_split by lia; f_equal; lia).
      assert (2 ^ 53 = 2 ^ d * 2 ^ (53 - d)) as ->
          by (rewrite <- pow2_split by lia; f_equal; lia).
      pose proof (pow2_pos (53 - d) ltac:(lia)) as Hc.
      revert Hq Hc. generalize (2 ^ (d - 1)) (2 ^ d) (2 ^ (53 - d)) (Z.pos q).
      intros a b c x Hx Hc. nia. }
    apply binary_round_aux_in_range; rewrite Hdz; lia.
Qed.

(** An int below [2^1023] in magnitude converts to a float. *)
Lemma to_float_returns (z : Z) :
  Z.abs z < 2 ^ 1023 -> exists k, Py.to_float z = Ok k.
Proof.
  intros Hz. unfold Py.to_float.
  assert (forall p, Z.pos p < 2 ^ 1023 -> Z.pos (digits2_pos p) <= 1023) as Hdig.
  { intros p Hp. pose proof (digits_bounds p) as [Hlo _].
    destruct (Z.le_gt_cases (Z.pos (digits2_pos p)) 1023) as [H | H]; [exact H | ].
    exfalso.
    assert (2 ^ 1023 <= 2 ^ (Z.pos (digits2_pos p) - 1))
      by (apply Z.pow_le_mono_r; lia).
    lia. }
  destruct z as [ | p | p].
  - eexists. reflexivity.
  - change (binary_normalize prec emax (Z.pos p) 0 false)
      with (binary_round prec emax false p 0).
    specialize (Hdig p ltac:(lia)).
    destruct (binary_round_in_range false p 0 ltac:(lia) ltac:(lia))
      as [m2 [e2 ->]].
    eexists. reflexivity.
  - change (binary_normalize prec emax (Z.neg p) 0 false)
      with (binary_round prec emax true p 0).
    specialize (Hdig p ltac:(lia)).
    destruct (binary_round_in_range true p 0 ltac:(lia) ltac:(lia))
      as [m2 [e2 ->]].
    eexists. reflexivity.
Qed.

Lemma pow_1000_1023 : 2 ^ 1000 + 9 < 2 ^ 1023.
Proof. vm_compute. reflexivity. Qed.

End Overflow.

(** X16.  The EV estimate returns on every realistic input: for a hand that
    starts with a rank character and a [players_left] of magnitude at most
    [2^1000], [eval_spot_ev] raises nothing and returns a pair whose
    [ev_fold] is 0. *)
Theorem eval_spot_ev_returns (hand : string) (h0 : ascii) (spot : Spot)
    (iterations : Z) (seed : option Z) (g : rng) :
  Py.item hand 0 = Ok h0 ->
  Py.contains h0 ranks_ascending = true ->
  Z.abs (players_left spot) <= 2 ^ 1000 ->
  exists evp,
    eval_spot_ev hand spot iterations seed g
    = (seed_rng seed g, Ok (evp, 0%float)).
Proof.
  intros Hfirst Hrank Hplayers.
  pose proof Overflow.pow_1000_1023 as Hpow.
  destruct (StrengthSpec.rank_index h0 Hrank) as [i [Hi _]].
  pose proof (StrengthOrder.strength_of hand h0 i Hfirst Hi) as Hequity.
  destruct (Overflow.to_float_returns (9 - players_left spot) ltac:(lia)) as [k Hk].
  destruct (Overflow.to_float_returns (players_left spot) ltac:(lia)) as [n Hn].
  eexists.
  apply (EV.eval_spot_ev_eq hand spot iterations seed g _ k n Hequity Hk).
  right. exact Hn.
Qed.

(** The knockout table of fifteen players. *)
Lemma eval_spot_ev_returns_witness :
  exists evp,
    eval_spot_ev "KQs" knockout_spot 500 (Some 42) SystemSeeded
    = (Seeded 42, Ok (evp, 0%float)).
Proof.
  apply (eval_spot_ev_returns "KQs" "K" knockout_spot 500 (Some 42) SystemSeeded);
    [reflexivity | reflexivity | ].
  vm_compute. discriminate.
Defined.

(** X17.  The advisor answers on every realistic input: for a finite stack,
    a hand that starts with a rank character and a [players_left] of
    magnitude at most [2^1000], [advisor_mode] raises nothing, whatever the
    chart holds. *)
Theorem advisor_mode_returns (chart : Chart) (hand : string) (h0 : ascii)
    (spot : Spot) (iterations : Z) (seed : option Z) (g : rng) :
  is_finite (stacks_bb spot) = true ->
  Py.item hand 0 = Ok h0 ->
  Py.contains h0 ranks_ascending = true ->
  Z.abs (players_left spot) <= 2 ^ 1000 ->
  exists adv,
    advisor_mode chart hand spot iterations seed g = (seed_rng seed g, Ok adv).
Proof.
  intros Hfin Hfirst Hrank Hplayers.
  destruct (Rounding.round_finite _ Hfin) as [bucket [Hround _]].
  pose proof (LoadFacts.eval_spot_chart_get hand spot chart bucket Hround) as Hc.
  destruct (eval_spot_ev_returns hand h0 spot iterations seed g
              Hfirst Hrank Hplayers) as [evp Hev].
  eexists. apply (Blend.advisor_mode_eq _ _ _ _ _ _ _ _ _ _ Hc Hev).
Qed.

(** The scenario spot with a chart that has no rows. *)
Lemma advisor_mode_returns_witness :
  exists adv,
    advisor_mode ∅ "A2s" scenario_spot 10000 (Some 1) SystemSeeded
    = (Seeded 1, Ok adv).
Proof.
  apply (advisor_mode_returns ∅ "A2s" "A" scenario_spot 10000 (Some 1) SystemSeeded);
    [reflexivity | reflexivity | reflexivity | ].
  vm_compute. discriminate.
Defined.

(** X18.  The advisor never answers ["N/A"]: whenever it returns, the final
    decision is the chart's decision or the EV decision, the EV decision is
    PUSH or FOLD, and the final decision is not the sentinel. *)
Theorem advisor_mode_final (chart : Chart) (hand : string) (spot : Spot)
    (iterations : Z) (seed : option Z) (g g' : rng) (adv : Advice) :
  advisor_mode chart hand spot iterations seed g = (g', Ok adv) ->
  final adv <> "N/A"
  /\ (decision_ev adv = "PUSH" \/ decision_ev adv = "FOLD")
  /\ (final adv = decision_chart adv \/ final adv = decision_ev adv).
Proof.
  unfold advisor_mode.
  destruct (eval_spot_chart hand spot chart) as [dc | e]; [ | discriminate].
  destruct (eval_spot_ev hand spot iterations seed g) as [g1 [[evp evf] | e]];
    [ | discriminate].
  unfold mbind, result_bind. intros [= _ <-].
  cbn [final decision_ev decision_chart].
  assert ((if (evf <? evp)%float then "PUSH" else "FOLD") <> "N/A") as Hev
      by (destruct (evf <? evp)%float; discriminate).
  split; [ | split].
  - destruct (String.eqb dc "N/A") eqn:Hdc; simpl.
    + exact Hev.
    + destruct (0.15 <? abs (evp - evf))%float; [exact Hev | ].
      now apply String.eqb_neq.
  - destruct (evf <? evp)%float; auto.
  - destruct (String.eqb dc "N/A" || (0.15 <? abs (evp - evf))%float); auto.
Qed.

(** A hand that the built-in chart does not list. *)
Lemma advisor_mode_final_witness :
  exists adv,
    advisor_mode load_chart_default "QQ" scenario_spot 10000 None SystemSeeded
    = (SystemSeeded, Ok adv)
    /\ decision_chart adv = "N/A"
    /\ final adv <> "N/A".
Proof.
  eexists. split; [vm_compute; reflexivity | ]. split; [reflexivity | ].
  eapply (advisor_mode_final load_chart_default "QQ" scenario_spot 10000 None
            SystemSeeded SystemSeeded).
  vm_compute. reflexivity.
Defined.


(** ** Quiz *)

Module QuizFacts.




End QuizFacts.



(** X21.  With the built-in chart the quiz has an answer for five of its
    ninety (hand, position, stack) draws only: the lookup of a drawn turn
    is the entry of the built-in table or ["N/A"], and on a turn without an
    entry neither PUSH nor FOLD is counted as correct. *)
Theorem quiz_builtin_chart (t : QuizTurn) :
  quiz_turn_drawn t ->
  let answer := builtin_answer (turn_hand t) (turn_pos t) (turn_stacks t) in
  eval_spot_chart (turn_hand t) (quiz_spot (turn_stacks t) (turn_pos t))
    load_chart_default
  = Ok (default "N/A" answer)
  /\ (answer = None ->
      PyStr.upper (PyStr.strip (turn_input t)) = "PUSH"
      \/ PyStr.upper (PyStr.strip (turn_input t)) = "FOLD" ->
      quiz_turn load_chart_default t = Ok false)
  /\ length
       (List.filter
          (fun c : string * string * Z =>
             match builtin_answer c.1.1 c.1.2 c.2 with
             | Some _ => true
             | None => false
             end)
          (list_prod (list_prod quiz_hands quiz_positions) quiz_stacks))
     = 5%nat.
Proof.
  intros [Hh [Hp Hs]] answer.
  assert (eval_spot_chart (turn_hand t) (quiz_spot (turn_stacks t) (turn_pos t))
            load_chart_default = Ok (default "N/A" answer)) as Hlookup.
  { unfold answer. destruct t as [hand pos stacks input]. simpl in *.
    unfold quiz_hands in Hh. unfold quiz_positions in Hp. unfold quiz_stacks in Hs.
    repeat (apply elem_of_cons in Hh as [-> | Hh]);
      try (apply elem_of_nil in Hh; contradiction);
      repeat (apply elem_of_cons in Hp as [-> | Hp]);
      try (apply elem_of_nil in Hp; contradiction);
      repeat (apply elem_of_cons in Hs as [-> | Hs]);
      try (apply elem_of_nil in Hs; contradiction);
      vm_compute; reflexivity. }
  split; [exact Hlookup | ]. split; [ | vm_compute; reflexivity].
  intros Hnone Hans. unfold quiz_turn. rewrite Hlookup, Hnone.
  unfold mbind, result_bind. simpl default.
  destruct Hans as [-> | ->]; reflexivity.
Qed.

(** A drawn turn at 12 big blinds, answered [push]. *)
Lemma quiz_builtin_chart_witness :
  quiz_turn load_chart_default
    {| turn_hand := "A2s"; turn_pos := "SB"; turn_stacks := 12;
       turn_input := " push " |}
  = Ok false.
Proof.
  destruct (quiz_builtin_chart
              {| turn_hand := "A2s"; turn_pos := "SB"; turn_stacks := 12;
                 turn_input := " push " |}) as [_ [Hwrong _]].
  - repeat split; vm_compute; repeat constructor.
  - apply Hwrong; [reflexivity | left; reflexivity].
Defined.
